(** * Aircrash dashboard (MyPythonProject.py): data preparation, filtering
      and aggregate views

    The script reads a CSV into a pandas DataFrame, normalises a few columns
    (load_data), lets the user restrict four dimensions through multiselect
    widgets, and computes KPIs and ten aggregate views over the filtered
    frame.

    Modelling choices.
    - A DataFrame is its list of column labels together with its rows in
      index order; a row is a finite map from column labels to cells.
    - A cell is NaN (also standing for NaT and None), a string, a number or a
      timestamp.  Numbers are integers: the columns of this data set hold
      counts (people aboard, fatalities, years), and the one quotient the
      script takes, the mean, is kept as an exact rational.
    - A Python exception is a value [Raise e]; every line of the script runs
      in the [result] monad, so that the enclosing try/except sees the first
      exception raised.
    - The pandas routines the script calls are written out as functions on
      this representation.  Three things are parameters: the date parser
      behind pd.to_datetime(errors="coerce"), the sorting routine behind
      sort_values / value_counts, whose default kind (quicksort) fixes the
      order of the keys but not the order among equal keys, and the choice
      the user makes in a multiselect widget.
    - The script is written twice: on a store of objects, where a variable
      holds a reference and an in-place change is visible through every
      reference ([script], [main]), and with frames passed by value
      ([dashboard]); [script_spec] shows that both show the same page. *)

From Stdlib Require Import ZArith QArith String List.
From stdpp Require Import base option list strings gmap sorting.

Set Warnings "-clear-no-such-hyp".

Local Open Scope string_scope.
Local Open Scope Z_scope.
Local Open Scope nat_scope.
Local Open Scope list_scope.

(** ** Cells *)

Inductive month :=
  | January | February | March | April | May | June
  | July | August | September | October | November | December.

Record Timestamp := { ts_year : Z; ts_month : month }.

Inductive cell :=
  | NaN
  | Str (s : string)
  | Num (n : Z)
  | Ts (t : Timestamp).

Global Instance month_eq_dec : EqDecision month.
Proof. solve_decision. Defined.
Global Instance Timestamp_eq_dec : EqDecision Timestamp.
Proof. solve_decision. Defined.
Global Instance cell_eq_dec : EqDecision cell.
Proof. solve_decision. Defined.

Definition isna (c : cell) : bool :=
  match c with NaN => true | _ => false end.

Definition is_num (c : cell) : bool :=
  match c with Num _ => true | _ => false end.

(** ** Exceptions *)

Inductive exn :=
  | KeyError (k : string)
  | TypeError
  | ValueError
  | NameError.

Inductive result (A : Type) :=
  | Ok (a : A)
  | Raise (e : exn).
Arguments Ok {A} a.
Arguments Raise {A} e.

Global Instance result_ret : MRet result := @Ok.
Global Instance result_bind : MBind result := λ A B f m,
  match m with Ok a => f a | Raise e => Raise e end.

Global Instance result_fmap : FMap result := λ A B f m,
  match m with Ok a => Ok (f a) | Raise e => Raise e end.

Global Instance exn_eq_dec : EqDecision exn.
Proof. solve_decision. Defined.
Global Instance result_eq_dec {A} `{EqDecision A} : EqDecision (result A).
Proof. solve_decision. Defined.

(** ** Frames *)

Record DataFrame := { columns : list string; rows : list (gmap string cell) }.

Global Instance DataFrame_eq_dec : EqDecision DataFrame.
Proof. solve_decision. Defined.

(** Every row carries a cell for every column label. *)
Definition well_formed (df : DataFrame) : Prop :=
  Forall (λ r : gmap string cell, Forall (λ k, is_Some (r !! k)) (columns df)) (rows df).

Global Instance well_formed_dec df : Decision (well_formed df).
Proof. unfold well_formed. apply _. Defined.

(** [k in df.columns] (and [k in df]) *)
Definition has_column (df : DataFrame) (k : string) : bool :=
  bool_decide (k ∈ columns df).

(** The cell of a row under a label. *)
Definition at_label (k : string) (r : gmap string cell) : cell :=
  default NaN (r !! k).

(** [len(df)] *)
Definition len (df : DataFrame) : nat := length (rows df).

(** [df[k]]: the column as a series, KeyError when the label is absent. *)
Definition getitem (df : DataFrame) (k : string) : result (list cell) :=
  if has_column df k then Ok (at_label k <$> rows df) else Raise (KeyError k).

(** [df[k] = v] with a scalar [v]: the value is broadcast to every row. *)
Definition setitem_scalar (df : DataFrame) (k : string) (v : cell) : DataFrame :=
  {| columns := if has_column df k then columns df else columns df ++ [k];
     rows := (λ r, <[k := v]> r) <$> rows df |}.

(** [df[k] = s] with a series [s] on the frame's own index. *)
Definition setitem (df : DataFrame) (k : string) (s : list cell) : DataFrame :=
  {| columns := if has_column df k then columns df else columns df ++ [k];
     rows := zip_with (λ (r : gmap string cell) c, <[k := c]> r) (rows df) s |}.

(** [df.rename(columns={old: new}, inplace=True)].  When [new] is already a
    label the renamed frame has two columns [new]; [df[new]] is then a frame,
    not a series, and the assignment of line 27 raises ValueError.  Frames
    with a repeated label are not represented, so the error is reported
    here. *)
Definition rename (df : DataFrame) (old new : string) : result DataFrame :=
  if has_column df new && bool_decide (old ≠ new) then Raise ValueError
  else Ok {| columns := (λ c, if decide (c = old) then new else c) <$> columns df;
             rows := (λ r : gmap string cell,
                        match r !! old with
                        | Some c => <[new := c]> (delete old r)
                        | None => r
                        end) <$> rows df |}.

(** ** Filling missing values *)

Definition fill_cell (v c : cell) : cell :=
  match c with NaN => v | _ => c end.

(** [s.fillna(v)] on a series *)
Definition series_fillna (v : cell) (s : list cell) : list cell :=
  fill_cell v <$> s.

Definition fillna_row (df : DataFrame) (value : list (string * cell))
    (r : gmap string cell) : gmap string cell :=
  foldl (λ (r : gmap string cell) kv,
           if has_column df kv.1 then alter (fill_cell kv.2) kv.1 r else r)
        r value.

(** [df.fillna(value)] with a dict [value]: per listed column that the frame
    has, NaN cells become the given value; other labels are skipped.  A new
    frame is returned. *)
Definition fillna (df : DataFrame) (value : list (string * cell)) : DataFrame :=
  {| columns := columns df; rows := fillna_row df value <$> rows df |}.

(** ** Arithmetic on series *)

(** Python's [+] on two cells: numbers add (NaN absorbs), strings
    concatenate, anything else is a TypeError. *)
Definition cell_add (a b : cell) : result cell :=
  match a, b with
  | Num x, Num y => Ok (Num (x + y)%Z)
  | NaN, Num _ | Num _, NaN | NaN, NaN => Ok NaN
  | Str x, Str y => Ok (Str (x ++ y))
  | _, _ => Raise TypeError
  end.

Fixpoint series_add (s1 s2 : list cell) : result (list cell) :=
  match s1, s2 with
  | a :: s1, b :: s2 =>
      c ← cell_add a b; s ← series_add s1 s2; Ok (c :: s)
  | _, _ => Ok []
  end.

(** ** Dates *)

Definition month_name (m : month) : string :=
  match m with
  | January => "January" | February => "February" | March => "March"
  | April => "April" | May => "May" | June => "June" | July => "July"
  | August => "August" | September => "September" | October => "October"
  | November => "November" | December => "December"
  end.

(** [s.dt.year] and [s.dt.month_name()] on a datetime series: NaT gives NaN. *)
Definition dt_year (c : cell) : cell :=
  match c with Ts t => Num (ts_year t) | _ => NaN end.
Definition dt_month_name (c : cell) : cell :=
  match c with Ts t => Str (month_name (ts_month t)) | _ => NaN end.

(** ** load_data *)

Definition categorical_defaults : list (string * cell) :=
  [("Country/Region", Str "Unspecified");
   ("Operator", Str "Unspecified");
   ("Aircraft", Str "Unspecified");
   ("Location", Str "Unspecified")].

(** Lines 18-24: make sure both fatality columns exist. *)
Definition fatality_columns (df : DataFrame) : result DataFrame :=
  df ← (if has_column df "Fatalities (air)"
        then rename df "Fatalities (air)" "Air"
        else Ok (setitem_scalar df "Air" (Num 0)));
  Ok (if negb (has_column df "Ground")
      then setitem_scalar df "Ground" (Num 0) else df).

(** Line 27: [df["Fatalities"] = df["Air"].fillna(0) + df["Ground"].fillna(0)] *)
Definition add_fatalities (df : DataFrame) : result DataFrame :=
  air ← getitem df "Air";
  ground ← getitem df "Ground";
  fatalities ← series_add (series_fillna (Num 0) air) (series_fillna (Num 0) ground);
  Ok (setitem df "Fatalities" fatalities).

Section Loader.
(** The parser of [pd.to_datetime(_, errors="coerce")] on one cell: a
timestamp, or nothing for what it cannot read. *)
Variable parse_datetime : cell → option Timestamp.

Definition to_datetime (s : list cell) : list cell :=
(λ c, match parse_datetime c with Some t => Ts t | None => NaN end) <$> s.

(** Lines 30-33 *)
Definition convert_date (df : DataFrame) : result DataFrame :=
if has_column df "Date" then
date ← getitem df "Date";
let df := setitem df "Date" (to_datetime date) in
date ← getitem df "Date";
let df := setitem df "Year" (dt_year <$> date) in
date ← getitem df "Date";
let df := setitem df "Month" (dt_month_name <$> date) in
Ok df
else Ok df.

(** [csv] is what [pd.read_csv("Aircrashes.csv")] returned. *)
Definition load_data (csv : DataFrame) : result DataFrame :=
let df := fillna csv categorical_defaults in
df ← fatality_columns df;
df ← add_fatalities df;
convert_date df.
End Loader.

(** ** Distinct values and membership *)

(** [s.dropna()] *)
Definition dropna (s : list cell) : list cell :=
  filter (λ c, isna c = false) s.

(** [s.unique()]: the distinct values in order of first appearance, as the
    hash table behind it meets them. *)
Fixpoint unique_from {A} `{EqDecision A} (seen : list A) (s : list A) : list A :=
  match s with
  | [] => []
  | c :: s =>
      if decide (c ∈ seen) then unique_from seen s
      else c :: unique_from (c :: seen) s
  end.

Definition unique {A} `{EqDecision A} (s : list A) : list A := unique_from [] s.

(** [s.isin(values)] on one cell *)
Definition isin (values : list cell) (c : cell) : bool :=
  bool_decide (c ∈ values).

(** [df[mask]] with a boolean series on the frame's own index: the rows whose
    mask entry is True, in order.  A new frame is returned. *)
Definition boolean_index (df : DataFrame) (mask : list bool) : DataFrame :=
  {| columns := columns df;
     rows := (filter (λ rb : gmap string cell * bool, rb.2 = true) (zip (rows df) mask)).*1 |}.

(** [df.copy()] *)
Definition copy (df : DataFrame) : DataFrame :=
  {| columns := columns df; rows := rows df |}.

(** [df.head(n)] *)
Definition head (n : nat) (df : DataFrame) : DataFrame :=
  {| columns := columns df; rows := take n (rows df) |}.

(** ** Reductions *)

(** A float that the script only displays. *)
Inductive float :=
  | FNaN
  | Float (q : Q).

(** The numbers of a series, NaN skipped (skipna=True).  A string or a
    timestamp makes a numeric reduction raise: object columns are outside the
    numeric part of the model. *)
Fixpoint numbers (s : list cell) : result (list Z) :=
  match s with
  | [] => Ok []
  | NaN :: s => numbers s
  | Num n :: s => l ← numbers s; Ok (n :: l)
  | _ :: _ => Raise TypeError
  end.

Definition Zsum (l : list Z) : Z := foldr Z.add 0%Z l.

(** [s.sum()] *)
Definition series_sum (s : list cell) : result Z :=
  l ← numbers s; Ok (Zsum l).

(** [s.mean()]: the sum of the values present over their count, NaN when no
    value is present. *)
Definition series_mean (s : list cell) : result float :=
  l ← numbers s;
  Ok (match length l with
      | O => FNaN
      | S _ => Float (inject_Z (Zsum l) / inject_Z (Z.of_nat (length l)))
      end).

(** ** Ordering of group keys

    groupby sorts its group keys.  Within one kind the order is the usual
    one; across kinds numbers come before strings. *)

Definition month_index (m : month) : nat :=
  match m with
  | January => 1 | February => 2 | March => 3 | April => 4 | May => 5
  | June => 6 | July => 7 | August => 8 | September => 9 | October => 10
  | November => 11 | December => 12
  end.

Definition cell_leb (a b : cell) : bool :=
  match a, b with
  | Num x, Num y => (x <=? y)%Z
  | Num _, _ => true
  | Str _, Num _ => false
  | Str x, Str y => String.leb x y
  | Str _, _ => true
  | Ts _, (Num _ | Str _) => false
  | Ts x, Ts y =>
      (ts_year x <? ts_year y)%Z
      || ((ts_year x =? ts_year y)%Z && (month_index (ts_month x) <=? month_index (ts_month y))%nat)
  | Ts _, NaN => true
  | NaN, NaN => true
  | NaN, _ => false
  end.

Fixpoint key_leb (k1 k2 : list cell) : bool :=
  match k1, k2 with
  | [], _ => true
  | _ :: _, [] => false
  | a :: k1, b :: k2 =>
      if decide (a = b) then key_leb k1 k2 else cell_leb a b
  end.

Definition key_le (k1 k2 : list cell) : Prop := key_leb k1 k2 = true.

Global Instance key_le_dec k1 k2 : Decision (key_le k1 k2).
Proof. unfold key_le. apply _. Defined.

(** ** Grouping *)

(** The key of a row under the grouping labels. *)
Definition key_of (by_ : list string) (r : gmap string cell) : list cell :=
  (λ k, at_label k r) <$> by_.

Definition has_na (key : list cell) : bool := existsb isna key.

(** The group keys of a frame: distinct keys without NaN (dropna=True), sorted
    (sort=True). *)
Definition group_keys (by_ : list string) (rs : list (gmap string cell)) : list (list cell) :=
  merge_sort key_le (unique (filter (λ k, has_na k = false) (key_of by_ <$> rs))).

(** The rows of one group, in frame order. *)
Definition group_rows (by_ : list string) (rs : list (gmap string cell)) (g : list cell)
    : list (gmap string cell) :=
  filter (λ r, key_of by_ r = g) rs.

Definition key_row (by_ : list string) (g : list cell) : gmap string cell :=
  list_to_map (zip by_ g).

Definition check_columns (df : DataFrame) (ks : list string) : result unit :=
  match filter (λ k, has_column df k = false) ks with
  | [] => Ok ()
  | k :: _ => Raise (KeyError k)
  end.

(** [df.groupby(by).size().reset_index(name=name)] *)
Definition groupby_size (df : DataFrame) (by_ : list string) (name : string)
    : result DataFrame :=
  _ ← check_columns df by_;
  Ok {| columns := by_ ++ [name];
        rows := (λ g, <[name := Num (Z.of_nat (length (group_rows by_ (rows df) g)))]>
                        (key_row by_ g))
                <$> group_keys by_ (rows df) |}.

(** The per-group sums of the value columns of one group. *)
Fixpoint sum_columns (vals : list string) (grp : list (gmap string cell))
    (acc : gmap string cell) : result (gmap string cell) :=
  match vals with
  | [] => Ok acc
  | v :: vals =>
      t ← series_sum (at_label v <$> grp);
      sum_columns vals grp (<[v := Num t]> acc)
  end.

Fixpoint mapM {A B} (f : A → result B) (l : list A) : result (list B) :=
  match l with
  | [] => Ok []
  | a :: l => b ← f a; bs ← mapM f l; Ok (b :: bs)
  end.

(** [df.groupby(by)[vals].sum().reset_index()] *)
Definition groupby_sum (df : DataFrame) (by_ : string) (vals : list string)
    : result DataFrame :=
  _ ← check_columns df (by_ :: vals);
  rs ← mapM (λ g, sum_columns vals (group_rows [by_] (rows df) g) (key_row [by_] g))
            (group_keys [by_] (rows df));
  Ok {| columns := by_ :: vals; rows := rs |}.

(** [q.columns = names]: the columns are relabelled by position; ValueError
    on a length mismatch.  This changes the frame it is applied to. *)
Definition set_columns (names : list string) (df : DataFrame) : result DataFrame :=
  if bool_decide (length names = length (columns df)) then
    Ok {| columns := names;
          rows := (λ r : gmap string cell,
                     list_to_map (zip names ((λ k, at_label k r) <$> columns df)))
                  <$> rows df |}
  else Raise ValueError.

(** ** Sorting *)

(** [l[indexer]]: the entries of [l] at the given positions. *)
Definition take_at {A} (l : list A) (indexer : list nat) : list A :=
  omap (λ i, l !! i) indexer.

Definition num_of (c : cell) : option Z :=
  match c with Num n => Some n | _ => None end.

(** [s.value_counts()] counts one value. *)
Definition count_of (v : cell) (s : list cell) : nat :=
  length (filter (λ c, c = v) s).

Inductive percent :=
  | ZeroPercent
  | Percent (q : Q).

Section Views.
(** NumPy's [argsort(kind="quicksort")] on an array of numbers: the
positions of the array in ascending order of their entries. *)
Variable argsort : list Z → list nat.

(** What NumPy promises of it: a rearrangement of all positions that puts
the entries in ascending order.  Nothing is promised on the order among
equal entries. *)
Definition argsort_spec : Prop :=
∀ keys : list Z,
argsort keys ≡ₚ seq 0 (length keys) ∧ Sorted Z.le (take_at keys (argsort keys)).

(** pandas' [nargsort(items, kind, ascending, na_position="last")]: NaN
entries are set aside and go last; the others are sorted, for a
descending sort by reversing before and after an ascending argsort.
Keys that are neither numbers nor NaN are outside the numeric part of
the model. *)
Definition nargsort (items : list cell) (ascending : bool) : result (list nat) :=
if forallb (λ c, isna c || is_num c) items then
let idx := zip (seq 0 (length items)) items in
let non_nan := filter (λ p : nat * cell, isna p.2 = false) idx in
let nan_idx := (filter (λ p : nat * cell, isna p.2 = true) idx).*1 in
let non_nan := if ascending then non_nan else reverse non_nan in
let indexer := take_at (non_nan.*1) (argsort (omap num_of (non_nan.*2))) in
let indexer := if ascending then indexer else reverse indexer in
Ok (indexer ++ nan_idx)
else Raise TypeError.

(** [df.sort_values(by=k, ascending=asc)].  A new frame is returned. *)
Definition sort_values (df : DataFrame) (k : string) (ascending : bool)
: result DataFrame :=
items ← getitem df k;
indexer ← nargsort items ascending;
Ok {| columns := columns df; rows := take_at (rows df) indexer |}.

(** [df[k].value_counts().reset_index()]: one row per distinct value that
is not NaN, met in order of first appearance and then sorted by
descending count.  The two columns are the value and its count; the
script relabels both by position right after, so their labels (which
differ between pandas versions) do not matter. *)
Definition value_counts (df : DataFrame) (k : string) : result DataFrame :=
s ← getitem df k;
sort_values
{| columns := [k; "count"];
   rows := (λ v, <["count" := Num (Z.of_nat (count_of v s))]> {[k := v]})
           <$> unique (dropna s) |}
"count" false.

(** *** Lines 44-49: the options of the four filters *)
Definition filters (df : DataFrame) : result (list (string * list cell)) :=
country ← getitem df "Country/Region";
aircraft ← getitem df "Aircraft";
operator ← getitem df "Operator";
year ← (if has_column df "Year"
      then s ← getitem df "Year"; Ok (unique (dropna s))
      else Ok []);
Ok [("Country/Region", unique country);
  ("Aircraft", unique aircraft);
  ("Operator", unique operator);
  ("Year", year)].

(** *** Lines 56-59: the filtered frame *)
Fixpoint filter_loop (filtered_df : DataFrame)
(items : list (string * list cell)) : result DataFrame :=
match items with
| [] => Ok filtered_df
| (key, selected_values) :: items =>
  match selected_values with
  | [] => filter_loop filtered_df items
  | _ :: _ =>
      s ← getitem filtered_df key;
      filter_loop (boolean_index filtered_df (isin selected_values <$> s)) items
  end
end.

Definition filtered_df (df : DataFrame) (selected_filters : list (string * list cell))
: result DataFrame :=
filter_loop (copy df) selected_filters.

(** *** Lines 64-68: the KPIs *)
Definition total_crashes (filtered : DataFrame) : nat := len filtered.

Definition total_fatalities (filtered : DataFrame) : result Z :=
s ← getitem filtered "Fatalities"; series_sum s.

Definition total_aboard (filtered : DataFrame) : result Z :=
s ← getitem filtered "Aboard"; series_sum s.

Definition avg_fatalities (filtered : DataFrame) : result float :=
s ← getitem filtered "Fatalities"; series_mean s.

Definition percent_fatalities (df : DataFrame) (total : Z) : result percent :=
all ← (s ← getitem df "Fatalities"; series_sum s);
if (0 <? all)%Z then
all ← (s ← getitem df "Fatalities"; series_sum s);
Ok (Percent (inject_Z total / inject_Z all * inject_Z 100))
else Ok ZeroPercent.

(** *** Lines 84-140: the views *)
Definition q1 (filtered : DataFrame) : result DataFrame :=
groupby_size filtered ["Country/Region"; "Aircraft"] "Crashes".

Definition q1_top (filtered : DataFrame) : result DataFrame :=
q ← q1 filtered;
q ← sort_values q "Crashes" false;
Ok (head 10 q).

Definition q2 (filtered : DataFrame) : result DataFrame :=
q ← value_counts filtered "Aircraft";
set_columns ["Aircraft"; "Crashes"] (head 6 q).

Definition q3 (filtered : DataFrame) : result DataFrame :=
q ← value_counts filtered "Operator";
set_columns ["Operator"; "Crashes"] (head 5 q).

(** [q4] is what the chart is drawn from. *)
Definition q4 (filtered : DataFrame) : result DataFrame :=
q ← value_counts filtered "Year";
set_columns ["Year"; "Crashes"] (head 10 q).

(** The table shown for Q4: [q4.sort_values("Year")]. *)
Definition q4_table (filtered : DataFrame) : result DataFrame :=
q ← q4 filtered;
sort_values q "Year" true.

Definition q5 (filtered : DataFrame) : result DataFrame :=
q ← groupby_sum filtered "Location" ["Fatalities"];
q ← sort_values q "Fatalities" false;
Ok (head 5 q).

Definition q6 (filtered : DataFrame) : result DataFrame :=
q ← groupby_sum filtered "Country/Region" ["Aboard"; "Fatalities"];
q ← sort_values q "Aboard" false;
Ok (head 5 q).

Definition q10 (filtered : DataFrame) : result DataFrame :=
q ← groupby_sum filtered "Month" ["Fatalities"];
sort_values q "Fatalities" false.
End Views.

(** ** The object store

    Python variables denote objects.  To follow which object a statement
    reads, creates or changes, frames live in a store and a variable holds a
    reference into it.  [alloc] is what an expression building a new frame
    does, [modify] what an in-place change does; rebinding a variable
    changes no object. *)

Abbreviation store := (list DataFrame).

Definition M (A : Type) : Type := store → result (A * store).

Global Instance M_ret : MRet M := λ A a h, Ok (a, h).
Global Instance M_bind : MBind M := λ A B f m h,
  match m h with Ok (a, h') => f a h' | Raise e => Raise e end.

Definition lift {A} (r : result A) : M A :=
  λ h, match r with Ok a => Ok (a, h) | Raise e => Raise e end.

Definition alloc (v : DataFrame) : M nat :=
  λ h, Ok (length h, h ++ [v]).

Definition deref (l : nat) : M DataFrame :=
  λ h, match h !! l with Some v => Ok (v, h) | None => Raise NameError end.

Definition modify (l : nat) (f : DataFrame → result DataFrame) : M unit :=
  λ h, match h !! l with
       | Some v => match f v with
                   | Ok v' => Ok ((), <[l := v']> h)
                   | Raise e => Raise e
                   end
       | None => Raise NameError
       end.

(** ** The script *)

(** What the page shows. *)
Record Dashboard := {
  out_filters : list (string * list cell);
  out_total_crashes : nat;
  out_total_fatalities : Z;
  out_avg_fatalities : float;
  out_percent_fatalities : percent;
  out_q1 : DataFrame;
  out_q2 : DataFrame;
  out_q3 : DataFrame;
  out_q4 : option (DataFrame * DataFrame);
  out_q5 : DataFrame;
  out_q6 : DataFrame;
  out_q9 : Z;
  out_q10 : option DataFrame
}.

Section Script.
Variable parse_datetime : cell → option Timestamp.
Variable argsort : list Z → list nat.
(** [st.sidebar.multiselect(key, options)]: what the user picked. *)
Variable multiselect : string → list cell → list cell.

(** Lines 51-53 *)
Definition selected_filters (options : list (string * list cell))
: list (string * list cell) :=
(λ kv, (kv.1, multiselect kv.1 kv.2)) <$> options.

(** Lines 57-59 on references: each pass that filters binds
[filtered_df] to a new frame. *)
Fixpoint filter_loop_ref (filtered : nat) (items : list (string * list cell))
: M nat :=
match items with
| [] => mret filtered
| (key, selected_values) :: items =>
  match selected_values with
  | [] => filter_loop_ref filtered items
  | _ :: _ =>
      f ← deref filtered;
      s ← lift (getitem f key);
      filtered ← alloc (boolean_index f (isin selected_values <$> s));
      filter_loop_ref filtered items
  end
end.

(** Lines 40-140, with [df] a reference to the loaded frame. *)
Definition script (df : nat) : M Dashboard :=
d ← deref df;
options ← lift (filters d);
let selected := selected_filters options in
d ← deref df;
filtered ← alloc (copy d);
filtered ← filter_loop_ref filtered selected;
f ← deref filtered;
let crashes := len f in
f ← deref filtered;
fatalities ← lift (total_fatalities f);
f ← deref filtered;
aboard ← lift (total_aboard f);
f ← deref filtered;
avg ← lift (avg_fatalities f);
d ← deref df;
pct ← lift (percent_fatalities d fatalities);
f ← deref filtered;
v ← lift (q1 f);
q1_ref ← alloc v;
v ← deref q1_ref;
v ← lift (sort_values argsort v "Crashes" false);
q1_top_ref ← alloc (head 10 v);
shown_q1 ← deref q1_top_ref;
f ← deref filtered;
v ← lift (value_counts argsort f "Aircraft");
q2_ref ← alloc (head 6 v);
_ ← modify q2_ref (set_columns ["Aircraft"; "Crashes"]);
shown_q2 ← deref q2_ref;
f ← deref filtered;
v ← lift (value_counts argsort f "Operator");
q3_ref ← alloc (head 5 v);
_ ← modify q3_ref (set_columns ["Operator"; "Crashes"]);
shown_q3 ← deref q3_ref;
f ← deref filtered;
shown_q4 ← (if has_column f "Year" then
            f ← deref filtered;
            v ← lift (value_counts argsort f "Year");
            q4_ref ← alloc (head 10 v);
            _ ← modify q4_ref (set_columns ["Year"; "Crashes"]);
            v ← deref q4_ref;
            table ← lift (sort_values argsort v "Year" true);
            chart ← deref q4_ref;
            mret (Some (table, chart))
          else mret None);
f ← deref filtered;
v ← lift (groupby_sum f "Location" ["Fatalities"]);
v ← lift (sort_values argsort v "Fatalities" false);
q5_ref ← alloc (head 5 v);
shown_q5 ← deref q5_ref;
f ← deref filtered;
v ← lift (groupby_sum f "Country/Region" ["Aboard"; "Fatalities"]);
v ← lift (sort_values argsort v "Aboard" false);
q6_ref ← alloc (head 5 v);
shown_q6 ← deref q6_ref;
f ← deref filtered;
shown_q10 ← (if has_column f "Month" then
             f ← deref filtered;
             v ← lift (groupby_sum f "Month" ["Fatalities"]);
             v ← lift (sort_values argsort v "Fatalities" false);
             q10_ref ← alloc v;
             v ← deref q10_ref;
             mret (Some v)
           else mret None);
mret {| out_filters := options;
      out_total_crashes := crashes;
      out_total_fatalities := fatalities;
      out_avg_fatalities := avg;
      out_percent_fatalities := pct;
      out_q1 := shown_q1;
      out_q2 := shown_q2;
      out_q3 := shown_q3;
      out_q4 := shown_q4;
      out_q5 := shown_q5;
      out_q6 := shown_q6;
      out_q9 := aboard;
      out_q10 := shown_q10 |}.

(** Lines 36-140: the body of the try block.  [read_csv] is the outcome
of [pd.read_csv("Aircrashes.csv")]. *)
Definition main (read_csv : result DataFrame) : M Dashboard :=
csv ← lift read_csv;
d ← lift (load_data parse_datetime csv);
df ← alloc d;
script df.

(** The same lines with frames passed by value. *)
Definition dashboard (df : DataFrame) : result Dashboard :=
options ← filters df;
filtered ← filtered_df df (selected_filters options);
fatalities ← total_fatalities filtered;
aboard ← total_aboard filtered;
avg ← avg_fatalities filtered;
pct ← percent_fatalities df fatalities;
shown_q1 ← q1_top argsort filtered;
shown_q2 ← q2 argsort filtered;
shown_q3 ← q3 argsort filtered;
shown_q4 ← (if has_column filtered "Year" then
            chart ← q4 argsort filtered;
            table ← sort_values argsort chart "Year" true;
            Ok (Some (table, chart))
          else Ok None);
shown_q5 ← q5 argsort filtered;
shown_q6 ← q6 argsort filtered;
shown_q10 ← (if has_column filtered "Month" then
             v ← q10 argsort filtered; Ok (Some v)
           else Ok None);
Ok {| out_filters := options;
    out_total_crashes := total_crashes filtered;
    out_total_fatalities := fatalities;
    out_avg_fatalities := avg;
    out_percent_fatalities := pct;
    out_q1 := shown_q1;
    out_q2 := shown_q2;
    out_q3 := shown_q3;
    out_q4 := shown_q4;
    out_q5 := shown_q5;
    out_q6 := shown_q6;
    out_q9 := aboard;
    out_q10 := shown_q10 |}.
End Script.

(** ** Notions used in the statements *)

(** Labels that lines 18-33 may write. *)
Definition derived_labels : list string :=
  ["Fatalities (air)"; "Air"; "Ground"; "Fatalities"; "Date"; "Year"; "Month"].

(** The four categorical fields. *)
Definition categorical : list string :=
  ["Country/Region"; "Operator"; "Aircraft"; "Location"].

(** A row's fatalities are its air and ground fatalities added up, a missing
    one counting as zero. *)
Definition fatalities_consistent (r : gmap string cell) : Prop :=
  cell_add (fill_cell (Num 0) (at_label "Air" r))
           (fill_cell (Num 0) (at_label "Ground" r))
  = Ok (at_label "Fatalities" r).

(** A row passes a selection when, for every dimension with a non-empty
    set of selected values, its value is one of them. *)
Definition selects (selection : list (string * list cell))
    (r : gmap string cell) : Prop :=
  Forall (λ kv : string * list cell, kv.2 = [] ∨ at_label kv.1 r ∈ kv.2) selection.

Global Instance selects_dec selection r : Decision (selects selection r).
Proof. unfold selects. apply _. Defined.

(** Every dimension that is restricted is a column of the frame (the
    multiselect of a dimension without column has no option to pick). *)
Definition selectable (df : DataFrame) (selection : list (string * list cell)) : Prop :=
  Forall (λ kv : string * list cell, kv.2 = [] ∨ kv.1 ∈ columns df) selection.

Global Instance selectable_dec df selection : Decision (selectable df selection).
Proof. unfold selectable. apply _. Defined.

(** A column that holds numbers only, some of them possibly missing. *)
Definition numeric (df : DataFrame) (k : string) : Prop :=
  Forall (λ r, isna (at_label k r) || is_num (at_label k r) = true) (rows df).

Global Instance numeric_dec df k : Decision (numeric df k).
Proof. unfold numeric. apply _. Defined.

(** What the script asks of its source: the columns it reads without a
    guard, numbers in the columns it adds up or sorts by, and not both
    spellings of the air fatalities. *)
Definition usable (csv : DataFrame) : Prop :=
  Forall (λ k, k ∈ columns csv)
         ["Country/Region"; "Aircraft"; "Operator"; "Location"; "Aboard"]
  ∧ numeric csv "Aboard"
  ∧ numeric csv "Fatalities (air)"
  ∧ numeric csv "Ground"
  ∧ ("Date" ∈ columns csv ∨ numeric csv "Year")
  ∧ ("Fatalities (air)" ∈ columns csv → "Air" ∉ columns csv).

Global Instance usable_dec csv : Decision (usable csv).
Proof. unfold usable. apply _. Defined.

(** A user picks among the options shown. *)
Definition picks_options (multiselect : string → list cell → list cell) : Prop :=
  ∀ key options, multiselect key options ⊆ options.

(** ** Sample data *)

Definition sample_row (country aircraft : string) (operator : cell)
    (air ground aboard : Z) : gmap string cell :=
  list_to_map [("Country/Region", Str country); ("Aircraft", Str aircraft);
               ("Operator", operator); ("Location", NaN);
               ("Fatalities (air)", Num air); ("Ground", Num ground);
               ("Aboard", Num aboard)].

Definition sample_csv : DataFrame :=
  {| columns := ["Country/Region"; "Aircraft"; "Operator"; "Location";
                 "Fatalities (air)"; "Ground"; "Aboard"];
     rows := [sample_row "US" "B737" (Str "Delta") 2 0 10;
              sample_row "US" "B737" NaN 1 1 5;
              sample_row "FR" "A320" (Str "Air France") 0 0 8] |}.


Definition no_dates : cell → option Timestamp := λ _, None.

Definition frame_of (r : result DataFrame) : DataFrame :=
  match r with Ok df => df | Raise _ => {| columns := []; rows := [] |} end.

Definition sample_df : DataFrame := frame_of (load_data no_dates sample_csv).

Definition sample_selection : list (string * list cell) :=
  [("Country/Region", [Str "US"]); ("Aircraft", []); ("Operator", []); ("Year", [])].

(** A selection that no record passes. *)
Definition empty_selection : list (string * list cell) :=
  [("Country/Region", [Str "US"]); ("Aircraft", [Str "A320"]); ("Operator", []);
   ("Year", [])].

Definition first_row (df : DataFrame) : gmap string cell :=
  default ∅ (rows df !! 0).

Definition empty_view : DataFrame :=
  frame_of (filtered_df sample_df empty_selection).

(** [values] lists the distinct entries of [series] in the order in which
    the series first shows them. *)
Definition first_appearances (series values : list cell) : Prop :=
  NoDup values
  ∧ (∀ x, x ∈ values ↔ x ∈ series)
  ∧ (∀ v1 x v2 y, values = v1 ++ x :: v2 → y ∈ v2 →
       ∃ s1 s2, series = s1 ++ x :: s2 ∧ y ∉ s1).

Definition cell_le (a b : cell) : Prop := cell_leb a b = true.

Global Instance cell_le_dec a b : Decision (cell_le a b).
Proof. unfold cell_le. apply _. Defined.

(** The options of one dimension. *)
Definition options_of (k : string) (options : list (string * list cell)) : list cell :=
  match list_find (λ kv : string * list cell, kv.1 = k) options with
  | Some (_, kv) => kv.2
  | None => []
  end.

(** *** Q1 *)

Definition q1_by : list string := ["Country/Region"; "Aircraft"].

(** The number of records of a view in the group [g]. *)
Definition crashes (view : DataFrame) (g : list cell) : Z :=
  Z.of_nat (length (group_rows q1_by (rows view) g)).




Definition number_at (k : string) (r : gmap string cell) : Z :=
  match at_label k r with Num n => n | _ => 0%Z end.


(** *** Q4 *)



(** *** Two sorting routines

    Both put the positions of an array in ascending order of the entries;
    among equal entries the first keeps the earlier position first, the
    second the later one. *)

Definition earlier_first (p q : nat * Z) : Prop :=
  (p.2 < q.2)%Z ∨ (p.2 = q.2 ∧ (p.1 ≤ q.1)%nat).

Definition later_first (p q : nat * Z) : Prop :=
  (p.2 < q.2)%Z ∨ (p.2 = q.2 ∧ (q.1 ≤ p.1)%nat).

Global Instance earlier_first_dec p q : Decision (earlier_first p q).
Proof. unfold earlier_first. apply _. Defined.

Global Instance later_first_dec p q : Decision (later_first p q).
Proof. unfold later_first. apply _. Defined.

Definition argsort_by (R : relation (nat * Z)) `{∀ p q, Decision (R p q)}
    (keys : list Z) : list nat :=
  (merge_sort R (zip (seq 0 (length keys)) keys)).*1.

Definition argsort_earlier_first : list Z → list nat := argsort_by earlier_first.
Definition argsort_later_first : list Z → list nat := argsort_by later_first.



(** A dataset with a date column, one date of which cannot be read. *)
Definition dated_row (country aircraft date : string) : gmap string cell :=
  list_to_map [("Country/Region", Str country); ("Aircraft", Str aircraft);
               ("Operator", Str "Delta"); ("Location", Str "Boston");
               ("Aboard", Num 10); ("Date", Str date)].

Definition dated_csv : DataFrame :=
  {| columns := ["Country/Region"; "Aircraft"; "Operator"; "Location"; "Aboard";
                 "Date"];
     rows := [dated_row "US" "B737" "2001-09-11"; dated_row "US" "B737" "1999-01-05";
              dated_row "FR" "A320" "2001-12-01"; dated_row "FR" "A320" "soon"] |}.

Definition sample_parser (c : cell) : option Timestamp :=
  match c with
  | Str "2001-09-11" => Some {| ts_year := 2001; ts_month := September |}
  | Str "2001-12-01" => Some {| ts_year := 2001; ts_month := December |}
  | Str "1999-01-05" => Some {| ts_year := 1999; ts_month := January |}
  | _ => None
  end.

Definition dated_df : DataFrame := frame_of (load_data sample_parser dated_csv).

(** A dataset without date column but with columns Year and Month of its
    own. *)
Definition year_row (country aircraft : string) (year : Z) (month : string)
    : gmap string cell :=
  list_to_map [("Country/Region", Str country); ("Aircraft", Str aircraft);
               ("Operator", Str "Delta"); ("Location", Str "Boston");
               ("Aboard", Num 10); ("Year", Num year); ("Month", Str month)].

Definition year_csv : DataFrame :=
  {| columns := ["Country/Region"; "Aircraft"; "Operator"; "Location"; "Aboard";
                 "Year"; "Month"];
     rows := [year_row "US" "B737" 2001 "September";
              year_row "FR" "A320" 1999 "January"] |}.

Definition year_df : DataFrame := frame_of (load_data no_dates year_csv).

(** A user who selects nothing. *)
Definition select_nothing : string → list cell → list cell := λ _ _, [].

(** A user who restricts the country to the first option. *)
Definition select_first_country (key : string) (options : list cell) : list cell :=
  if decide (key = "Country/Region") then take 1 options else [].

Definition no_dashboard : Dashboard :=
  {| out_filters := []; out_total_crashes := 0; out_total_fatalities := 0;
     out_avg_fatalities := FNaN; out_percent_fatalities := ZeroPercent;
     out_q1 := {| columns := []; rows := [] |};
     out_q2 := {| columns := []; rows := [] |};
     out_q3 := {| columns := []; rows := [] |};
     out_q4 := None;
     out_q5 := {| columns := []; rows := [] |};
     out_q6 := {| columns := []; rows := [] |};
     out_q9 := 0; out_q10 := None |}.

Definition outcome_of (r : result (Dashboard * store)) : Dashboard * store :=
  match r with Ok p => p | Raise _ => (no_dashboard, []) end.

(** The script run on the dated sample, loaded as the only frame of the
    store. *)
Definition dated_outcome : Dashboard * store :=
  outcome_of (script argsort_later_first select_first_country 0 [dated_df]).

(** ** Notions for the views and KPIs beyond the claims *)




(** The sum of column [k] over the records of a view in group [g] of
    column [by_], a missing value counting as zero. *)
Definition group_total (view : DataFrame) (by_ k : string) (g : list cell) : Z :=
  Zsum (number_at k <$> group_rows [by_] (rows view) g).

(** A row of Q5, Q6 and Q10: the group with its sums. *)
Definition sums_row (view : DataFrame) (by_ : string) (vals : list string)
    (g : list cell) : gmap string cell :=
  foldl (λ (acc : gmap string cell) v, <[v := Num (group_total view by_ v g)]> acc)
        (key_row [by_] g) vals.

(** A column without negative numbers. *)
Definition non_negative (df : DataFrame) (k : string) : Prop :=
  Forall (λ r, (0 ≤ number_at k r)%Z) (rows df).

Global Instance non_negative_dec df k : Decision (non_negative df k).
Proof. unfold non_negative. apply _. Defined.

(** The first of the labels that a frame lacks. *)
Definition first_missing (df : DataFrame) (ks : list string) : option string :=
  hd_error (filter (λ k, k ∉ columns df) ks).

(** A frame without one of its columns. *)
Definition without_column (k : string) (df : DataFrame) : DataFrame :=
  {| columns := filter (λ c, c ≠ k) (columns df);
     rows := (λ r : gmap string cell, delete k r) <$> rows df |}.

Definition no_aircraft_csv : DataFrame := without_column "Aircraft" sample_csv.
Definition no_aboard_csv : DataFrame := without_column "Aboard" sample_csv.
Definition no_aboard_df : DataFrame := frame_of (load_data no_dates no_aboard_csv).

(** The options that the filter widgets of a dataset offer. *)
Definition offered (df : DataFrame) : list (string * list cell) :=
  match filters df with Ok options => options | Raise _ => [] end.

(** A user who asks for a country and an aircraft that no record combines. *)
Definition select_us_a320 (key : string) (options : list cell) : list cell :=
  if decide (key = "Country/Region") then filter (λ c, c = Str "US") options
  else if decide (key = "Aircraft") then filter (λ c, c = Str "A320") options
  else [].

(** The records of the sample from the United States. *)
Definition us_view : DataFrame :=
  frame_of (filtered_df sample_df sample_selection).

(** * Properties *)

(** ** The exception monad *)

Lemma bind_Ok {A B} (m : result A) (f : A → result B) b :
  m ≫= f = Ok b ↔ ∃ a, m = Ok a ∧ f a = Ok b.
Proof.
  destruct m as [a|e]; simpl; split.
  - intros H. by exists a.
  - by intros (a' & [= <-] & H).
  - intros [=].
  - by intros (a' & [=] & _).
Qed.

Ltac inv_bind H :=
  repeat match type of H with
  | mbind _ _ = Ok _ =>
      let a := fresh "v" in
      let Ha := fresh "E" in
      apply bind_Ok in H as (a & Ha & H)
  end.

(** ** Rows under the frame operations *)

Lemma has_column_true df k : has_column df k = true ↔ k ∈ columns df.
Proof. unfold has_column. apply bool_decide_eq_true. Qed.

Lemma has_column_false df k : has_column df k = false ↔ k ∉ columns df.
Proof. unfold has_column. apply bool_decide_eq_false. Qed.

Lemma getitem_Ok df k s :
  getitem df k = Ok s ↔ k ∈ columns df ∧ s = at_label k <$> rows df.
Proof.
  unfold getitem. destruct (has_column df k) eqn:E.
  - apply has_column_true in E. split; [intros [= <-]|intros [_ ->]]; done.
  - apply has_column_false in E. split; [done|]. by intros [? _].
Qed.

Lemma at_label_insert k k' c (r : gmap string cell) :
  at_label k (<[k' := c]> r) = if decide (k' = k) then c else at_label k r.
Proof. unfold at_label. rewrite lookup_insert. by case_decide. Qed.

Lemma at_label_insert_ne k k' c (r : gmap string cell) :
  k' ≠ k → at_label k (<[k' := c]> r) = at_label k r.
Proof. intros. rewrite at_label_insert. by case_decide. Qed.

Lemma at_label_insert_eq k c (r : gmap string cell) :
  at_label k (<[k := c]> r) = c.
Proof. rewrite at_label_insert. by case_decide. Qed.

Lemma series_add_length s1 s2 s :
  series_add s1 s2 = Ok s → length s1 = length s2 → length s = length s1.
Proof.
  revert s2 s. induction s1 as [|a s1 IH]; intros [|b s2] s H Hl; simplify_eq/=; try done.
  inv_bind H. simplify_eq/=. f_equal. eauto.
Qed.

Lemma series_add_lookup s1 s2 s i a b :
  series_add s1 s2 = Ok s → s1 !! i = Some a → s2 !! i = Some b →
  ∃ c, s !! i = Some c ∧ cell_add a b = Ok c.
Proof.
  revert s2 s i. induction s1 as [|a' s1 IH]; intros [|b' s2] s i H H1 H2;
    simplify_eq/=; try done.
  inv_bind H. simplify_eq/=. destruct i as [|i]; simplify_eq/=; eauto.
Qed.

(** Rows of a frame after an assignment of a whole column. *)
Lemma setitem_rows_Forall2 df k s :
  length s = length (rows df) →
  Forall2 (λ (r r' : gmap string cell), ∃ c, r' = <[k := c]> r)
          (rows df) (rows (setitem df k s)).
Proof.
  simpl. generalize (rows df). intros rs. revert s.
  induction rs as [|r rs IH]; intros [|c s] Hl; simplify_eq/=; constructor; eauto.
Qed.

Lemma setitem_rows_lookup df k s i r c :
  rows df !! i = Some r → s !! i = Some c →
  rows (setitem df k s) !! i = Some (<[k := c]> r).
Proof.
  simpl. intros H1 H2. rewrite lookup_zip_with, H1. simpl. by rewrite H2.
Qed.

Lemma setitem_rows_length df k s :
  length s = length (rows df) → length (rows (setitem df k s)) = length (rows df).
Proof. simpl. intros. rewrite length_zip_with. lia. Qed.

Lemma setitem_Forall df k s (P : gmap string cell → Prop) :
  (∀ r c, P r → P (<[k := c]> r)) →
  Forall P (rows df) → Forall P (rows (setitem df k s)).
Proof.
  intros HP. simpl. generalize (rows df). intros rs. revert s.
  induction rs as [|r rs IH]; intros [|c s] H; simpl; try constructor;
    inversion H; subst; eauto.
Qed.

(** ** load_data, row by row *)


Lemma setitem_scalar_lookup df k v i r :
  rows df !! i = Some r → rows (setitem_scalar df k v) !! i = Some (<[k := v]> r).
Proof. simpl. intros H. by rewrite list_lookup_fmap, H. Qed.

Lemma rename_lookup df old new df' i r :
  rename df old new = Ok df' → rows df !! i = Some r →
  ∃ r', rows df' !! i = Some r' ∧
        ∀ k, k ≠ old → k ≠ new → r' !! k = r !! k.
Proof.
  unfold rename. destruct (_ && _); [done|]. intros [= <-] H. simpl.
  rewrite list_lookup_fmap, H. simpl. eexists; split; [done|].
  intros k H1 H2. destruct (r !! old); [|done].
  by rewrite lookup_insert_ne, lookup_delete_ne.
Qed.

Lemma fatality_columns_lookup df df' i r :
  fatality_columns df = Ok df' → rows df !! i = Some r →
  ∃ r', rows df' !! i = Some r' ∧ ∀ k, k ∉ derived_labels → r' !! k = r !! k.
Proof.
  unfold fatality_columns. intros H Hr. inv_bind H. simplify_eq/=.
  assert (∃ r1, rows v !! i = Some r1 ∧ ∀ k, k ∉ derived_labels → r1 !! k = r !! k)
    as (r1 & Hr1 & Hk1).
  { destruct (has_column df "Fatalities (air)").
    - destruct (rename_lookup _ _ _ _ _ _ E Hr) as (r1 & ? & Hk).
      exists r1. split; [done|]. intros k Hn. apply Hk; intros ->; apply Hn;
        unfold derived_labels; set_solver.
    - simplify_eq. eexists. split; [by apply setitem_scalar_lookup|].
      intros k Hn. apply lookup_insert_ne. intros <-. apply Hn.
      unfold derived_labels; set_solver. }
  destruct (negb _).
  - eexists. split; [by apply setitem_scalar_lookup|].
    intros k Hn. rewrite lookup_insert_ne; [by apply Hk1|].
    intros <-. apply Hn. unfold derived_labels; set_solver.
  - eauto.
Qed.

Lemma fatality_columns_length df df' :
  fatality_columns df = Ok df' → length (rows df') = length (rows df).
Proof.
  unfold fatality_columns. intros H. inv_bind H. simplify_eq/=.
  assert (length (rows v) = length (rows df)) as <-.
  { destruct (has_column df _).
    - unfold rename in E. destruct (_ && _); simplify_eq/=. by rewrite length_fmap.
    - simplify_eq/=. by rewrite length_fmap. }
  destruct (negb _); simpl; by rewrite ?length_fmap.
Qed.

Lemma add_fatalities_length df df' :
  add_fatalities df = Ok df' → length (rows df') = length (rows df).
Proof.
  unfold add_fatalities. intros H. inv_bind H. simplify_eq/=.
  apply getitem_Ok in E as [_ ->]. apply getitem_Ok in E0 as [_ ->].
  apply series_add_length in E1; unfold series_fillna in *;
    rewrite ?length_fmap in *; [|done].
  rewrite length_zip_with. lia.
Qed.

Lemma add_fatalities_lookup df df' i r :
  add_fatalities df = Ok df' → rows df !! i = Some r →
  ∃ c, rows df' !! i = Some (<["Fatalities" := c]> r) ∧
       cell_add (fill_cell (Num 0) (at_label "Air" r))
                (fill_cell (Num 0) (at_label "Ground" r)) = Ok c.
Proof.
  unfold add_fatalities. intros H Hr. inv_bind H. simplify_eq/=.
  apply getitem_Ok in E as [_ ->]. apply getitem_Ok in E0 as [_ ->].
  destruct (series_add_lookup _ _ _ i (fill_cell (Num 0) (at_label "Air" r))
              (fill_cell (Num 0) (at_label "Ground" r)) E1) as (c & Hc & Hadd).
  { unfold series_fillna. by rewrite !list_lookup_fmap, Hr. }
  { unfold series_fillna. by rewrite !list_lookup_fmap, Hr. }
  exists c. split; [|done]. rewrite lookup_zip_with, Hr. simpl. by rewrite Hc.
Qed.

Lemma getitem_setitem_length df k s k' s' :
  length s = length (rows df) → getitem (setitem df k s) k' = Ok s' →
  length s' = length (rows df).
Proof.
  intros Hl [_ ->]%getitem_Ok. rewrite length_fmap. by apply setitem_rows_length.
Qed.

Section LoaderFacts.
Variable parse_datetime : cell → option Timestamp.

Lemma convert_date_lookup df df' i r :
convert_date parse_datetime df = Ok df' → rows df !! i = Some r →
∃ r', rows df' !! i = Some r' ∧
    ∀ k, k ≠ "Date" → k ≠ "Year" → k ≠ "Month" → r' !! k = r !! k.
Proof.
unfold convert_date. intros H Hr. destruct (has_column df "Date"); [|simplify_eq; eauto].
inv_bind H. simplify_eq.
apply getitem_Ok in E as [_ ->].
set (df1 := setitem df "Date" _) in *.
assert (∃ c, rows df1 !! i = Some (<["Date" := c]> r)) as [c1 H1].
{ eexists. apply setitem_rows_lookup; [done|].
unfold to_datetime. by rewrite !list_lookup_fmap, Hr. }
apply getitem_Ok in E0 as [_ ->].
set (df2 := setitem df1 "Year" _) in *.
assert (∃ c, rows df2 !! i = Some (<["Year" := c]> (<["Date" := c1]> r))) as [c2 H2].
{ eexists. apply setitem_rows_lookup; [done|]. by rewrite !list_lookup_fmap, H1. }
apply getitem_Ok in E1 as [_ ->].
eexists. split.
{ apply setitem_rows_lookup; [done|]. by rewrite !list_lookup_fmap, H2. }
intros k ? ? ?. by rewrite !lookup_insert_ne.
Qed.

Lemma convert_date_length df df' :
convert_date parse_datetime df = Ok df' → length (rows df') = length (rows df).
Proof.
unfold convert_date. intros H. destruct (has_column df "Date"); [|by simplify_eq].
inv_bind H. simplify_eq/=.
apply getitem_Ok in E as [_ ->]. apply getitem_Ok in E0 as [_ ->].
apply getitem_Ok in E1 as [_ ->].
unfold to_datetime. simpl.
rewrite !length_zip_with, !length_fmap, !length_zip_with, !length_fmap,
!length_zip_with, !length_fmap. lia.
Qed.

Lemma convert_date_Forall df df' (P : gmap string cell → Prop) :
(∀ r c, P r → P (<["Date" := c]> r)) →
(∀ r c, P r → P (<["Year" := c]> r)) →
(∀ r c, P r → P (<["Month" := c]> r)) →
convert_date parse_datetime df = Ok df' →
Forall P (rows df) → Forall P (rows df').
Proof.
unfold convert_date. intros P1 P2 P3 H HP.
destruct (has_column df "Date"); [|by simplify_eq].
inv_bind H. simplify_eq.
apply (setitem_Forall _ _ _ P P3), (setitem_Forall _ _ _ P P2),
(setitem_Forall _ _ _ P P1), HP.
Qed.

Lemma load_data_length csv df :
load_data parse_datetime csv = Ok df → length (rows df) = length (rows csv).
Proof.
unfold load_data. intros H. inv_bind H.
apply convert_date_length in H. apply add_fatalities_length in E0.
apply fatality_columns_length in E. simpl in E. rewrite length_fmap in E. congruence.
Qed.

(** Outside the labels that lines 18-33 write, a loaded row is the source
row after [fillna]. *)
Lemma load_data_lookup csv df i r :
load_data parse_datetime csv = Ok df → rows csv !! i = Some r →
∃ r', rows df !! i = Some r' ∧
    ∀ k, k ∉ derived_labels →
         r' !! k = fillna_row csv categorical_defaults r !! k.
Proof.
unfold load_data. intros H Hr. inv_bind H.
destruct (fatality_columns_lookup _ _ i
          (fillna_row csv categorical_defaults r) E) as (r1 & Hr1 & Hk1).
{ simpl. by rewrite list_lookup_fmap, Hr. }
destruct (add_fatalities_lookup _ _ _ _ E0 Hr1) as (c & Hr2 & _).
destruct (convert_date_lookup _ _ _ _ H Hr2) as (r3 & Hr3 & Hk3).
exists r3. split; [done|]. intros k Hn.
rewrite Hk3, lookup_insert_ne, Hk1; try done;
intros ?; subst; apply Hn; unfold derived_labels; set_solver.
Qed.
End LoaderFacts.

(** ** Filtering *)

Lemma mask_filter (f : gmap string cell → bool) (rs : list (gmap string cell)) :
  (filter (λ rb : gmap string cell * bool, rb.2 = true) (zip rs (f <$> rs))).*1
  = filter (λ r, f r = true) rs.
Proof.
  induction rs as [|r rs IH]; [done|]. cbn [fmap list_fmap zip zip_with].
  rewrite !filter_cons. cbn [snd]. destruct (f r) eqn:E.
  - rewrite !decide_True by done. cbn. by f_equal.
  - rewrite !decide_False by done. done.
Qed.

Lemma boolean_index_rows df (f : gmap string cell → bool) :
  rows (boolean_index df (f <$> rows df)) = filter (λ r, f r = true) (rows df).
Proof. apply mask_filter. Qed.

Lemma isin_true values c : isin values c = true ↔ c ∈ values.
Proof. unfold isin. apply bool_decide_eq_true. Qed.

Lemma boolean_index_isin df key values :
  rows (boolean_index df (isin values <$> (at_label key <$> rows df)))
  = filter (λ r, at_label key r ∈ values) (rows df).
Proof.
  rewrite <- list_fmap_compose.
  rewrite (boolean_index_rows df (isin values ∘ at_label key)).
  apply list_filter_iff. intros r. simpl. apply isin_true.
Qed.

Lemma copy_eq df : copy df = df.
Proof. by destruct df. Qed.

(** The loop of lines 57-59 keeps, in order, the rows that pass the
    selection. *)
Lemma filter_loop_spec items : ∀ fdf,
  selectable fdf items →
  filter_loop fdf items
  = Ok {| columns := columns fdf; rows := filter (selects items) (rows fdf) |}.
Proof.
  induction items as [|[key vals] items IH]; intros fdf Hs; simpl.
  - f_equal. destruct fdf as [cs rs]. simpl. f_equal. clear Hs.
    induction rs as [|r rs IHr]; [done|].
    rewrite filter_cons_True; [by f_equal|]. apply Forall_nil_2.
  - apply Forall_cons in Hs as [Hkv Hs]. simpl in Hkv. destruct vals as [|v vals].
    + rewrite IH by done. do 2 f_equal. apply list_filter_iff. intros r.
      unfold selects. rewrite Forall_cons. simpl. naive_solver.
    + destruct Hkv as [?|Hkey]; [done|].
      unfold getitem. rewrite (proj2 (has_column_true _ _) Hkey). simpl.
      rewrite IH by exact Hs. cbn [columns boolean_index].
      rewrite boolean_index_isin.
      do 2 f_equal. rewrite list_filter_filter. apply list_filter_iff. intros r.
      unfold selects. rewrite Forall_cons. simpl. naive_solver.
Qed.

Lemma filtered_df_spec df selection :
  selectable df selection →
  filtered_df df selection
  = Ok {| columns := columns df; rows := filter (selects selection) (rows df) |}.
Proof. intros. unfold filtered_df. rewrite copy_eq. by apply filter_loop_spec. Qed.

(** Without the column of a restricted dimension the loop raises; with it,
    it returns.  Either way a returned view is a sub-list of the rows. *)
Lemma filter_loop_sublist items : ∀ fdf view,
  filter_loop fdf items = Ok view →
  columns view = columns fdf ∧ rows view `sublist_of` rows fdf.
Proof.
  induction items as [|[key vals] items IH]; intros fdf view H; simpl in H.
  - by simplify_eq.
  - destruct vals as [|v vals]; [by apply IH|].
    inv_bind H. apply getitem_Ok in E as [_ ->].
    apply IH in H as [Hc Hr]. split; [done|].
    etrans; [exact Hr|].
    rewrite boolean_index_isin. apply sublist_filter.
Qed.

Lemma filtered_df_sublist df selection view :
  filtered_df df selection = Ok view →
  columns view = columns df ∧ rows view `sublist_of` rows df.
Proof. unfold filtered_df. rewrite copy_eq. apply filter_loop_sublist. Qed.

(** ** Fatalities *)

Lemma add_fatalities_Forall df df' (P : gmap string cell → Prop) :
  (∀ r c, P r → P (<["Fatalities" := c]> r)) →
  add_fatalities df = Ok df' → Forall P (rows df) → Forall P (rows df').
Proof.
  unfold add_fatalities. intros HP H Hall. inv_bind H. simplify_eq.
  by apply setitem_Forall.
Qed.

Lemma add_fatalities_consistent df df' :
  add_fatalities df = Ok df' → Forall fatalities_consistent (rows df').
Proof.
  intros H. apply Forall_lookup. intros i r' Hr'.
  destruct (rows df !! i) as [r|] eqn:Hr.
  - destruct (add_fatalities_lookup _ _ _ _ H Hr) as (c & Hc & Hadd).
    rewrite Hc in Hr'. simplify_eq. unfold fatalities_consistent.
    by rewrite (at_label_insert_ne "Air"), (at_label_insert_ne "Ground"),
      at_label_insert_eq.
  - apply lookup_ge_None in Hr. apply lookup_lt_Some in Hr'.
    apply add_fatalities_length in H. lia.
Qed.

Lemma has_column_setitem_scalar df k v k' :
  has_column (setitem_scalar df k v) k' = has_column df k' || bool_decide (k = k').
Proof.
  unfold has_column at 1. simpl. apply eq_true_iff_eq.
  rewrite bool_decide_eq_true, orb_true_iff, has_column_true, bool_decide_eq_true.
  destruct (has_column df k) eqn:E.
  - apply has_column_true in E. naive_solver.
  - set_solver.
Qed.

Lemma rename_columns df old new df' k :
  rename df old new = Ok df' → k ≠ old → k ≠ new →
  has_column df' k = has_column df k.
Proof.
  unfold rename. destruct (_ && _); [done|]. intros [= <-] H1 H2.
  apply eq_true_iff_eq. rewrite !has_column_true. simpl.
  rewrite list_elem_of_fmap. split.
  - intros (c & Hc & Hin). by case_decide; simplify_eq.
  - intros Hin. exists k. by rewrite decide_False.
Qed.



Section FatalitiesFacts.
Variable parse_datetime : cell → option Timestamp.

Lemma load_data_consistent csv df :
load_data parse_datetime csv = Ok df → Forall fatalities_consistent (rows df).
Proof.
unfold load_data. intros H. inv_bind H.
eapply convert_date_Forall; [| | |exact H|by eapply add_fatalities_consistent];
intros r c; unfold fatalities_consistent; by rewrite !at_label_insert_ne.
Qed.


End FatalitiesFacts.



(** Decidable facts about concrete data are settled by evaluation. *)
Ltac by_compute :=
  match goal with
  | |- ?P => apply (bool_decide_unpack P); vm_compute; exact I
  end.


(** C3.  The filtered view consists of exactly the records that pass every
    restricted dimension (a value of the selected set; a dimension with no
    selected value restricts nothing), in the order of the dataset, with the
    dataset's columns; when no dimension is restricted it is the dataset. *)
Theorem applyFilters_keeps_selected df selection :
  selectable df selection →
  filtered_df df selection
  = Ok {| columns := columns df; rows := filter (selects selection) (rows df) |}
  ∧ (Forall (λ kv : string * list cell, kv.2 = []) selection →
     filtered_df df selection = Ok df).
Proof.
  intros Hs. split; [by apply filtered_df_spec|].
  intros Hall. rewrite filtered_df_spec by done.
  clear Hs. destruct df as [cs rs]. simpl. do 2 f_equal.
  induction rs as [|r rs IH]; [done|].
  rewrite filter_cons_True; [by f_equal|].
  unfold selects. eapply Forall_impl; [exact Hall|]. naive_solver.
Qed.

Lemma applyFilters_keeps_selected_witness :
  filtered_df sample_df sample_selection
  = Ok {| columns := columns sample_df;
          rows := filter (selects sample_selection) (rows sample_df) |}
  ∧ (Forall (λ kv : string * list cell, kv.2 = []) sample_selection →
     filtered_df sample_df sample_selection = Ok sample_df).
Proof.
  apply (applyFilters_keeps_selected sample_df sample_selection).
  by_compute.
Defined.

(** C8.  Filtering a filtered view again by the same selection changes
    nothing. *)
Theorem applyFilters_idempotent df selection :
  selectable df selection →
  ∃ view, filtered_df df selection = Ok view
          ∧ filtered_df view selection = Ok view.
Proof.
  intros Hs. eexists. split; [by apply filtered_df_spec|].
  rewrite filtered_df_spec by exact Hs. simpl. do 2 f_equal.
  rewrite list_filter_filter. apply list_filter_iff. naive_solver.
Qed.

Lemma applyFilters_idempotent_witness :
  ∃ view, filtered_df sample_df sample_selection = Ok view
          ∧ filtered_df view sample_selection = Ok view.
Proof.
  apply (applyFilters_idempotent sample_df sample_selection).
  by_compute.
Defined.

(** ** Categorical fields *)

Lemma fillna_row_categorical csv (r : gmap string cell) k c :
  k ∈ categorical → k ∈ columns csv → r !! k = Some c →
  fillna_row csv categorical_defaults r !! k
  = Some (fill_cell (Str "Unspecified") c).
Proof.
  intros Hk Hc Hr. apply has_column_true in Hc.
  unfold fillna_row, categorical_defaults. cbn [foldl fst snd].
  unfold categorical in Hk.
  repeat (apply elem_of_cons in Hk as [->|Hk]); [..|by apply elem_of_nil in Hk];
    rewrite ?Hc;
    repeat match goal with
    | |- context [has_column csv ?x] => destruct (has_column csv x)
    end;
    rewrite ?lookup_alter_ne by done; rewrite ?lookup_alter_eq, ?Hr;
    try reflexivity; rewrite ?lookup_alter_ne by done; rewrite ?lookup_alter_eq, ?Hr;
    try reflexivity; rewrite ?lookup_alter_ne by done; by rewrite ?lookup_alter_eq, ?Hr.
Qed.

(** C6.  A categorical field that the source has is never missing after
    load_data: a missing value has become exactly "Unspecified" and any
    other value is kept, record by record. *)
Theorem missing_categorical_is_Unspecified parse_datetime csv df k :
  well_formed csv → k ∈ categorical → k ∈ columns csv →
  load_data parse_datetime csv = Ok df →
  length (rows df) = length (rows csv)
  ∧ (∀ i r, rows csv !! i = Some r →
       ∃ r', rows df !! i = Some r'
             ∧ r' !! k = Some (if isna (at_label k r) then Str "Unspecified"
                               else at_label k r))
  ∧ (∀ r', r' ∈ rows df → is_Some (r' !! k) ∧ at_label k r' ≠ NaN).
Proof.
  intros Hwf Hk Hc Hload.
  assert (k ∉ derived_labels) as Hnd.
  { unfold categorical, derived_labels in *. set_solver. }
  assert (∀ i r, rows csv !! i = Some r →
       ∃ r', rows df !! i = Some r'
             ∧ r' !! k = Some (if isna (at_label k r) then Str "Unspecified"
                               else at_label k r)) as Hrow.
  { intros i r Hr.
    destruct (load_data_lookup _ _ _ _ _ Hload Hr) as (r' & Hr' & Hk').
    exists r'. split; [done|]. rewrite (Hk' k Hnd).
    unfold well_formed in Hwf. rewrite Forall_lookup in Hwf.
    specialize (Hwf i r Hr). rewrite Forall_forall in Hwf.
    destruct (Hwf k Hc) as [c Hcell].
    rewrite (fillna_row_categorical _ _ _ c) by done.
    unfold at_label. rewrite Hcell. simpl. by destruct c. }
  split; [by eapply load_data_length|]. split; [done|].
  intros r' [i Hi]%list_elem_of_lookup.
  destruct (rows csv !! i) as [r|] eqn:Hr.
  - destruct (Hrow i r Hr) as (r2 & Hr2 & Hk2). simplify_eq.
    split; [by rewrite Hk2|]. unfold at_label at 1. rewrite Hk2. simpl.
    intros Heq. destruct (isna (at_label k r)) eqn:E; [done|].
    rewrite Heq in E. done.
  - apply lookup_ge_None in Hr. apply lookup_lt_Some in Hi.
    apply load_data_length in Hload. lia.
Qed.

Lemma missing_categorical_is_Unspecified_witness :
  length (rows sample_df) = length (rows sample_csv)
  ∧ (∀ i r, rows sample_csv !! i = Some r →
       ∃ r', rows sample_df !! i = Some r'
             ∧ r' !! "Operator"
               = Some (if isna (at_label "Operator" r) then Str "Unspecified"
                       else at_label "Operator" r))
  ∧ (∀ r', r' ∈ rows sample_df →
       is_Some (r' !! "Operator") ∧ at_label "Operator" r' ≠ NaN).
Proof.
  apply (missing_categorical_is_Unspecified no_dates sample_csv sample_df "Operator").
  - by_compute.
  - by_compute.
  - by_compute.
  - vm_compute. reflexivity.
Defined.

(** ** The KPIs *)

Lemma has_column_setitem df k s k' :
  has_column (setitem df k s) k' = has_column df k' || bool_decide (k = k').
Proof.
  unfold has_column at 1. simpl. apply eq_true_iff_eq.
  rewrite bool_decide_eq_true, orb_true_iff, has_column_true, bool_decide_eq_true.
  destruct (has_column df k) eqn:E.
  - apply has_column_true in E. naive_solver.
  - set_solver.
Qed.

Lemma convert_date_columns parse_datetime df df' k :
  convert_date parse_datetime df = Ok df' → k ∈ columns df → k ∈ columns df'.
Proof.
  unfold convert_date. intros H Hk. destruct (has_column df "Date"); [|by simplify_eq].
  inv_bind H. simplify_eq. apply has_column_true.
  rewrite !has_column_setitem. apply has_column_true in Hk. by rewrite Hk.
Qed.

Lemma load_data_has_Fatalities parse_datetime csv df :
  load_data parse_datetime csv = Ok df → "Fatalities" ∈ columns df.
Proof.
  unfold load_data. intros H. inv_bind H.
  eapply convert_date_columns; [exact H|].
  unfold add_fatalities in E0. inv_bind E0. simplify_eq.
  apply has_column_true. rewrite has_column_setitem.
  rewrite bool_decide_true by done. apply orb_true_r.
Qed.






(** ** Indexing by positions *)








Lemma filter_all {A} (P : A → Prop) `{∀ x, Decision (P x)} (l : list A) :
  Forall P l → filter P l = l.
Proof.
  induction 1 as [|x l Hx _ IH]; [done|]. rewrite filter_cons_True by done.
  by f_equal.
Qed.

Lemma filter_none {A} (P : A → Prop) `{∀ x, Decision (P x)} (l : list A) :
  Forall (λ x, ¬ P x) l → filter P l = [].
Proof.
  induction 1 as [|x l Hx _ IH]; [done|]. by rewrite filter_cons_False.
Qed.

(** ** Sorting by a numeric column *)

Section Sorting.
Variable argsort : list Z → list nat.
Hypothesis argsort_ok : argsort_spec argsort.


End Sorting.

(** ** Distinct values *)

Lemma elem_of_unique_from {A} `{EqDecision A} (seen s : list A) x :
  x ∈ unique_from seen s ↔ x ∈ s ∧ x ∉ seen.
Proof.
  revert seen. induction s as [|c s IH]; intros seen; simpl.
  - set_solver.
  - case_decide; rewrite ?elem_of_cons, IH; [set_solver|].
    destruct (decide (x = c)); set_solver.
Qed.

Lemma NoDup_unique_from {A} `{EqDecision A} (seen s : list A) :
  NoDup (unique_from seen s).
Proof.
  revert seen. induction s as [|c s IH]; intros seen; simpl; [constructor|].
  case_decide; [done|]. constructor; [|done].
  rewrite elem_of_unique_from. set_solver.
Qed.

Lemma elem_of_unique {A} `{EqDecision A} (s : list A) x : x ∈ unique s ↔ x ∈ s.
Proof. unfold unique. rewrite elem_of_unique_from. set_solver. Qed.

Lemma NoDup_unique {A} `{EqDecision A} (s : list A) : NoDup (unique s).
Proof. apply NoDup_unique_from. Qed.

(** Distinct values come in the order in which the series first shows
    them: what precedes [y] among them occurs in the series before [y]
    does. *)
Lemma unique_from_order {A} `{EqDecision A} (seen s v1 v2 : list A) x y :
  unique_from seen s = v1 ++ x :: v2 → y ∈ v2 →
  ∃ c1 c2, s = c1 ++ x :: c2 ∧ y ∉ c1.
Proof.
  revert seen v1. induction s as [|c s IH]; intros seen v1 Hu Hy; simpl in Hu.
  - by destruct v1.
  - case_decide as Hc.
    + destruct (IH _ _ Hu Hy) as (c1 & c2 & -> & Hn).
      exists (c :: c1), c2. split; [done|].
      assert (y ∈ unique_from seen (c1 ++ x :: c2)) as Hin
        by (rewrite Hu; set_solver).
      apply elem_of_unique_from in Hin. set_solver.
    + destruct v1 as [|c' v1]; simplify_eq/=.
      * exists [], s. split; [done|]. set_solver.
      * destruct (IH _ _ H0 Hy) as (c1 & c2 & -> & Hn).
        exists (c' :: c1), c2. split; [done|].
        assert (y ∈ unique_from (c' :: seen) (c1 ++ x :: c2)) as Hin
          by (rewrite H0; set_solver).
        apply elem_of_unique_from in Hin. set_solver.
Qed.

Lemma elem_of_dropna s c : c ∈ dropna s ↔ c ∈ s ∧ c ≠ NaN.
Proof.
  unfold dropna. rewrite list_elem_of_filter. destruct c; naive_solver.
Qed.

(** ** The filter options *)

Lemma unique_first_appearances s : first_appearances s (unique s).
Proof.
  split; [apply NoDup_unique|]. split; [intros x; apply elem_of_unique|].
  intros v1 x v2 y Hv Hy. by eapply unique_from_order.
Qed.

(** C5 (as the code has it).  The options of a dimension are the distinct
    values of its column over the whole dataset in the order in which the
    records first show them; for the year, records without a year are left
    out, and without a Year column there is no option. *)
Theorem filter_options_first_appearance df :
  "Country/Region" ∈ columns df → "Aircraft" ∈ columns df →
  "Operator" ∈ columns df →
  ∃ country aircraft operator year,
    filters df = Ok [("Country/Region", country); ("Aircraft", aircraft);
                     ("Operator", operator); ("Year", year)]
    ∧ first_appearances (at_label "Country/Region" <$> rows df) country
    ∧ first_appearances (at_label "Aircraft" <$> rows df) aircraft
    ∧ first_appearances (at_label "Operator" <$> rows df) operator
    ∧ (if has_column df "Year"
       then first_appearances (dropna (at_label "Year" <$> rows df)) year
            ∧ (∀ y, y ∈ year ↔ y ≠ NaN ∧ ∃ r, r ∈ rows df ∧ at_label "Year" r = y)
       else year = []).
Proof.
  intros H1 H2 H3. unfold filters, getitem.
  rewrite (proj2 (has_column_true _ _) H1), (proj2 (has_column_true _ _) H2),
    (proj2 (has_column_true _ _) H3). simpl.
  destruct (has_column df "Year") eqn:Hy; simpl.
  - do 4 eexists. split; [reflexivity|].
    do 3 (split; [apply unique_first_appearances|]).
    split; [apply unique_first_appearances|].
    intros y. rewrite elem_of_unique, elem_of_dropna, list_elem_of_fmap.
    naive_solver.
  - do 4 eexists. split; [reflexivity|].
    do 3 (split; [apply unique_first_appearances|]). done.
Qed.

Lemma filter_options_first_appearance_witness :
  ∃ country aircraft operator year,
    filters sample_df = Ok [("Country/Region", country); ("Aircraft", aircraft);
                            ("Operator", operator); ("Year", year)]
    ∧ first_appearances (at_label "Country/Region" <$> rows sample_df) country
    ∧ first_appearances (at_label "Aircraft" <$> rows sample_df) aircraft
    ∧ first_appearances (at_label "Operator" <$> rows sample_df) operator
    ∧ (if has_column sample_df "Year"
       then first_appearances (dropna (at_label "Year" <$> rows sample_df)) year
            ∧ (∀ y, y ∈ year ↔ y ≠ NaN
                     ∧ ∃ r, r ∈ rows sample_df ∧ at_label "Year" r = y)
       else year = []).
Proof.
  apply (filter_options_first_appearance sample_df); by_compute.
Defined.

(** C5 as stated fails: the options are not sorted.  In the sample the
    records show "US" before "FR", and so do the options. *)
Lemma filter_options_not_sorted :
  load_data no_dates sample_csv = Ok sample_df
  ∧ (∃ options, filters sample_df = Ok options
       ∧ options_of "Country/Region" options = [Str "US"; Str "FR"]
       ∧ ¬ Sorted cell_le (options_of "Country/Region" options)).
Proof.
  split; [vm_compute; reflexivity|].
  eexists. split; [vm_compute; reflexivity|].
  split; [vm_compute; reflexivity|]. by_compute.
Qed.

(** ** The two sorting routines meet the specification of argsort *)

Global Instance earlier_first_total : Total earlier_first.
Proof. intros [i x] [j y]. unfold earlier_first. simpl. lia. Qed.

Global Instance later_first_total : Total later_first.
Proof. intros [i x] [j y]. unfold later_first. simpl. lia. Qed.

Lemma take_at_pairs (keys : list Z) (ps : list (nat * Z)) :
  Forall (λ p : nat * Z, keys !! p.1 = Some p.2) ps →
  take_at keys (ps.*1) = ps.*2.
Proof.
  unfold take_at. induction 1 as [|[i x] ps Hp _ IH]; [done|]. simpl in *.
  rewrite Hp. simpl. f_equal. exact IH.
Qed.

Lemma zip_seq_lookup (keys : list Z) :
  Forall (λ p : nat * Z, keys !! p.1 = Some p.2) (zip (seq 0 (length keys)) keys).
Proof.
  apply Forall_forall. intros [i x] Hin.
  apply list_elem_of_lookup in Hin as [j Hj].
  apply lookup_zip_with_Some in Hj as (i' & x' & [= <- <-] & Hi & Hx).
  apply lookup_seq in Hi as [-> _]. done.
Qed.

Lemma argsort_by_spec (R : relation (nat * Z)) `{∀ p q, Decision (R p q)}
    `{!Total R} :
  (∀ p q, R p q → (p.2 ≤ q.2)%Z) → argsort_spec (argsort_by R).
Proof.
  intros HR keys. unfold argsort_by.
  set (ps := zip (seq 0 (length keys)) keys). split.
  - rewrite merge_sort_Permutation. unfold ps.
    rewrite fst_zip; [done|]. by rewrite length_seq.
  - rewrite take_at_pairs.
    + apply (Sorted_fmap snd R Z.le); [exact HR|]. by apply Sorted_merge_sort.
    + rewrite merge_sort_Permutation. apply zip_seq_lookup.
Qed.

Lemma argsort_earlier_first_spec : argsort_spec argsort_earlier_first.
Proof.
  apply argsort_by_spec; [apply _|]. intros p q. unfold earlier_first. lia.
Qed.


(** ** Grouping *)

Lemma NoDup_group_keys by_ rs : NoDup (group_keys by_ rs).
Proof.
  unfold group_keys. rewrite merge_sort_Permutation. apply NoDup_unique.
Qed.

Lemma elem_of_group_keys by_ rs g :
  g ∈ group_keys by_ rs ↔ has_na g = false ∧ ∃ r, r ∈ rs ∧ key_of by_ r = g.
Proof.
  unfold group_keys. rewrite merge_sort_Permutation, elem_of_unique,
    list_elem_of_filter, list_elem_of_fmap. naive_solver.
Qed.

Lemma check_columns_Ok df ks :
  Forall (λ k, k ∈ columns df) ks → check_columns df ks = Ok ().
Proof.
  intros H. unfold check_columns. rewrite filter_none; [done|].
  eapply Forall_impl; [exact H|]. intros k Hk. simpl.
  apply has_column_true in Hk. congruence.
Qed.



(** ** Q1 *)





(** ** Counting values *)

Section Counting.
Variable argsort : list Z → list nat.
Hypothesis argsort_ok : argsort_spec argsort.

End Counting.




(** ** Q4 *)




(** ** The store *)

Lemma run_ret {A} (a : A) (h : store) : (mret a : M A) h = Ok (a, h).
Proof. done. Qed.

Lemma run_lift_bind {A B} (r : result A) (f : A → M B) (h : store) :
  (lift r ≫= f) h = match r with Ok a => f a h | Raise e => Raise e end.
Proof. by destruct r. Qed.

Lemma run_alloc_bind {B} (v : DataFrame) (f : nat → M B) (h : store) :
  (alloc v ≫= f) h = f (length h) (h ++ [v]).
Proof. done. Qed.

Lemma run_deref_bind {B} (l : nat) (v : DataFrame) (f : DataFrame → M B) (h : store) :
  h !! l = Some v → (deref l ≫= f) h = f v h.
Proof. intros H. unfold mbind, M_bind, deref. by rewrite H. Qed.

Lemma run_modify_bind {B} (l : nat) (v : DataFrame) (g : DataFrame → result DataFrame)
    (f : unit → M B) (h : store) :
  h !! l = Some v →
  (modify l g ≫= f) h
  = match g v with Ok v' => f () (<[l := v']> h) | Raise e => Raise e end.
Proof. intros H. unfold mbind, M_bind, modify. rewrite H. by destruct (g v). Qed.

Lemma run_bind_assoc {A B C} (m : M A) (f : A → M B) (g : B → M C) (h : store) :
  ((m ≫= f) ≫= g) h = (m ≫= (λ a, f a ≫= g)) h.
Proof.
  unfold mbind, M_bind. destruct (m h) as [[a h']|e]; [|done]. done.
Qed.

Lemma lookup_snoc_eq {A} (l : list A) x : (l ++ [x]) !! length l = Some x.
Proof. by rewrite lookup_app_r, Nat.sub_diag. Qed.

Lemma lookup_snoc_lt {A} (l : list A) x i :
  i < length l → (l ++ [x]) !! i = l !! i.
Proof. intros. by rewrite lookup_app_l. Qed.

Lemma insert_snoc {A} (l : list A) x y : <[length l := y]> (l ++ [x]) = l ++ [y].
Proof. by rewrite insert_app_r_alt, Nat.sub_diag. Qed.

Section StoreFacts.
Variable multiselect : string → list cell → list cell.

(** The loop on references computes what the loop on values computes, in a
  frame of its own, and leaves the frames that exist untouched. *)
Lemma filter_loop_ref_spec items : ∀ (h : store) lf f,
h !! lf = Some f →
match filter_loop f items with
| Ok view =>
    ∃ h' lf', filter_loop_ref lf items h = Ok (lf', h')
              ∧ h' !! lf' = Some view
              ∧ length h ≤ length h'
              ∧ ∀ l, l < length h → h' !! l = h !! l
| Raise e => filter_loop_ref lf items h = Raise e
end.
Proof.
induction items as [|[key vals] items IH]; intros h lf f Hlf; simpl.
- exists h, lf. by rewrite run_ret.
- destruct vals as [|v vals]; [by apply IH|].
  rewrite (run_deref_bind lf f) by done. rewrite run_lift_bind.
  destruct (getitem f key) as [s|e]; simpl; [|done].
  rewrite run_alloc_bind.
  specialize (IH (h ++ [boolean_index f (isin (v :: vals) <$> s)]) (length h)
                (boolean_index f (isin (v :: vals) <$> s)) (lookup_snoc_eq _ _)).
  destruct (filter_loop _ items) as [view|e]; [|done].
  destruct IH as (h' & lf' & Hrun & Hview & Hlen & Hold).
  exists h', lf'. split; [done|]. split; [done|].
  rewrite length_app in Hlen. simpl in Hlen. split; [lia|].
  intros l Hl. rewrite Hold by (rewrite length_app; simpl; lia).
  by apply lookup_snoc_lt.
Qed.
End StoreFacts.

Lemma result_bind_Ok {A B} (a : A) (f : A → result B) : Ok a ≫= f = f a.
Proof. done. Qed.

Lemma result_bind_Raise {A B} (e : exn) (f : A → result B) :
  Raise e ≫= f = Raise e.
Proof. done. Qed.

Lemma result_bind_assoc {A B C} (m : result A) (f : A → result B) (g : B → result C) :
  (m ≫= f) ≫= g = m ≫= (λ a, f a ≫= g).
Proof. by destruct m. Qed.

Lemma run_bind_Ok {A B} (m : M A) (f : A → M B) (h h' : store) a :
  m h = Ok (a, h') → (m ≫= f) h = f a h'.
Proof. intros H. unfold mbind, M_bind. by rewrite H. Qed.

Lemma run_bind_Raise {A B} (m : M A) (f : A → M B) (h : store) e :
  m h = Raise e → (m ≫= f) h = Raise e.
Proof. intros H. unfold mbind, M_bind. by rewrite H. Qed.

Lemma run_ret_bind {A B} (a : A) (f : A → M B) (h : store) :
  (mret a ≫= f) h = f a h.
Proof. done. Qed.

Ltac store_len := rewrite ?length_app; simpl; lia.

Ltac store_lookup :=
  repeat first
    [ eassumption
    | apply lookup_snoc_eq
    | rewrite lookup_snoc_lt by store_len ].

Ltac run_step :=
  first
    [ rewrite run_bind_assoc
    | rewrite run_alloc_bind
    | erewrite run_deref_bind by store_lookup
    | rewrite run_lift_bind
    | erewrite run_modify_bind by store_lookup
    | rewrite insert_snoc
    | rewrite result_bind_assoc
    | rewrite result_bind_Ok
    | rewrite result_bind_Raise
    | rewrite run_ret_bind
    | rewrite run_ret
    | progress cbv beta iota zeta ].

Ltac run_known :=
  match goal with
  | H : ?r = Ok _ |- context [?r] => rewrite H
  | H : ?r = Raise _ |- context [?r] => rewrite H
  | H : has_column ?f ?k = _ |- context [has_column ?f ?k] => rewrite H
  end.

Ltac run_case :=
  match goal with
  | |- context [@mbind result _ _ _ _ ?r] =>
      let E := fresh "E" in destruct r eqn:E
  | |- context [match ?r with Ok _ => _ | Raise _ => _ end] =>
      let E := fresh "E" in destruct r eqn:E
  end.

Section ScriptFacts.
Variable argsort : list Z → list nat.
Variable multiselect : string → list cell → list cell.

(** The script, run on the store, shows what [dashboard] computes by value,
  raises what it raises, and changes no frame that existed before. *)
Lemma script_spec (h : store) l_df df :
h !! l_df = Some df →
match dashboard argsort multiselect df with
| Ok d => ∃ h', script argsort multiselect l_df h = Ok (d, h')
                ∧ ∀ l, l < length h → h' !! l = h !! l
| Raise e => script argsort multiselect l_df h = Raise e
end.
Proof.
intros Hdf. pose proof (lookup_lt_Some _ _ _ Hdf) as Hl_df.
unfold script, dashboard, filtered_df, q1_top, q2, q3, q4, q5, q6, q10.
repeat run_step. run_case; repeat run_step; [|done].
pose proof (filter_loop_ref_spec (selected_filters multiselect a)
              (h ++ [copy df]) (length h) (copy df) (lookup_snoc_eq _ _)) as Hloop.
destruct (filter_loop (copy df) (selected_filters multiselect a)) as [view|e];
  repeat run_step.
2:{ by rewrite (run_bind_Raise _ _ _ _ Hloop). }
destruct Hloop as (h1 & lf & Hrun & Hview & Hlen & Hold).
rewrite (run_bind_Ok _ _ _ _ _ Hrun).
rewrite length_app in Hlen. simpl in Hlen.
assert (h1 !! l_df = Some df) as Hdf1.
{ rewrite Hold by store_len. by rewrite lookup_snoc_lt. }
pose proof (lookup_lt_Some _ _ _ Hview) as Hlf.
assert (l_df < length h1) as Hl_df1 by lia.
repeat first
  [ run_step
  | done
  | run_known
  | match goal with
    | |- context [if has_column ?f ?k then _ else _] =>
        let E := fresh "E" in destruct (has_column f k) eqn:E
    end
  | run_case ].
all: eexists; (split; [reflexivity|]); intros l Hl;
  rewrite !lookup_snoc_lt by store_len; rewrite Hold by store_len;
  by rewrite lookup_snoc_lt.
Qed.
End ScriptFacts.

(** C9.  Running the script (the filter loop, the KPIs and the ten views)
    changes no frame that existed before it; in particular the loaded
    dataset is, record for record and field for field, what it was. *)
Theorem dataset_unchanged_by_script argsort multiselect (h : store) l_df df d h' :
  h !! l_df = Some df →
  script argsort multiselect l_df h = Ok (d, h') →
  h' !! l_df = Some df
  ∧ (∀ l, l < length h → h' !! l = h !! l)
  ∧ dashboard argsort multiselect df = Ok d.
Proof.
  intros Hdf Hrun. pose proof (script_spec argsort multiselect h l_df df Hdf) as Hs.
  destruct (dashboard argsort multiselect df) as [d0|e].
  - destruct Hs as (h0 & Hrun0 & Hold). rewrite Hrun0 in Hrun. simplify_eq.
    split; [|done]. rewrite Hold; [done|]. by eapply lookup_lt_Some.
  - congruence.
Qed.

Lemma dataset_unchanged_by_script_witness :
  dated_outcome.2 !! 0 = Some dated_df
  ∧ (∀ l, l < length [dated_df] → dated_outcome.2 !! l = [dated_df] !! l)
  ∧ dashboard argsort_later_first select_first_country dated_df
    = Ok dated_outcome.1.
Proof.
  apply (dataset_unchanged_by_script argsort_later_first select_first_country
           [dated_df] 0 dated_df dated_outcome.1 dated_outcome.2).
  - reflexivity.
  - vm_compute. reflexivity.
Defined.

(** ** Columns after load_data *)

Lemma fatality_columns_has df df' k :
  fatality_columns df = Ok df' →
  k ≠ "Fatalities (air)" → k ≠ "Air" → k ≠ "Ground" →
  has_column df' k = has_column df k.
Proof.
  unfold fatality_columns. intros H H1 H2 H3. inv_bind H.
  assert (has_column v k = has_column df k) as <-.
  { destruct (has_column df "Fatalities (air)").
    - by eapply rename_columns.
    - simplify_eq. rewrite has_column_setitem_scalar.
      rewrite bool_decide_false by done. apply orb_false_r. }
  simplify_eq. destruct (negb _); [|done].
  rewrite has_column_setitem_scalar. rewrite bool_decide_false by done.
  apply orb_false_r.
Qed.

Lemma add_fatalities_has df df' k :
  add_fatalities df = Ok df' → k ≠ "Fatalities" →
  has_column df' k = has_column df k.
Proof.
  unfold add_fatalities. intros H H1. inv_bind H. simplify_eq.
  rewrite has_column_setitem, bool_decide_false by done. apply orb_false_r.
Qed.

(** Without a date column the loader adds neither a year nor a month. *)
Lemma load_data_without_date parse_datetime csv df k :
  load_data parse_datetime csv = Ok df → "Date" ∉ columns csv →
  k = "Date" ∨ k = "Year" ∨ k = "Month" →
  has_column df k = has_column csv k.
Proof.
  unfold load_data. intros H Hno Hk. inv_bind H.
  assert (∀ k', k' = "Date" ∨ k' = "Year" ∨ k' = "Month" →
                has_column v0 k' = has_column csv k') as Hsame.
  { intros k' Hk'. rewrite (add_fatalities_has _ _ _ E0) by naive_solver.
    rewrite (fatality_columns_has _ _ _ E) by naive_solver. done. }
  unfold convert_date in H. rewrite (Hsame "Date") in H by auto.
  rewrite (proj2 (has_column_false _ _) Hno) in H. simplify_eq. by apply Hsame.
Qed.

(** ** What the dashboard shows *)

Section DashboardFacts.
Variable argsort : list Z → list nat.
Variable multiselect : string → list cell → list cell.

Lemma dashboard_Ok df d :
dashboard argsort multiselect df = Ok d →
∃ view,
  filters df = Ok (out_filters d)
  ∧ filtered_df df (selected_filters multiselect (out_filters d)) = Ok view
  ∧ out_total_crashes d = total_crashes view
  ∧ total_fatalities view = Ok (out_total_fatalities d)
  ∧ total_aboard view = Ok (out_q9 d)
  ∧ avg_fatalities view = Ok (out_avg_fatalities d)
  ∧ percent_fatalities df (out_total_fatalities d) = Ok (out_percent_fatalities d)
  ∧ q1_top argsort view = Ok (out_q1 d)
  ∧ q2 argsort view = Ok (out_q2 d)
  ∧ q3 argsort view = Ok (out_q3 d)
  ∧ q5 argsort view = Ok (out_q5 d)
  ∧ q6 argsort view = Ok (out_q6 d)
  ∧ (if has_column view "Year"
     then ∃ table chart, out_q4 d = Some (table, chart)
                         ∧ q4 argsort view = Ok chart
                         ∧ q4_table argsort view = Ok table
     else out_q4 d = None)
  ∧ (if has_column view "Month"
     then ∃ v, out_q10 d = Some v ∧ q10 argsort view = Ok v
     else out_q10 d = None).
Proof.
unfold dashboard. intros H. inv_bind H. simplify_eq. simpl.
exists v0. repeat (split; [done|]). split.
- destruct (has_column v0 "Year"); [|by simplify_eq].
  unfold q4_table. destruct (q4 argsort v0) as [chart|e]; [|done].
  simpl in *. destruct (sort_values argsort chart "Year" true); [|done].
  simplify_eq/=. eauto.
- destruct (has_column v0 "Month"); [|by simplify_eq].
  destruct (q10 argsort v0); simplify_eq/=. eauto.
Qed.
End DashboardFacts.

(** ** No exception on numeric data *)

Lemma numbers_Ok s :
  Forall (λ c, isna c || is_num c = true) s → ∃ l, numbers s = Ok l.
Proof.
  induction 1 as [|c s Hc _ [l IH]]; [by exists []|].
  destruct c; simpl in *; try done; rewrite IH; simpl; eauto.
Qed.

Lemma series_sum_Ok s :
  Forall (λ c, isna c || is_num c = true) s → ∃ t, series_sum s = Ok t.
Proof.
  intros [l Hl]%numbers_Ok. unfold series_sum. rewrite Hl. simpl. eauto.
Qed.

Lemma series_mean_Ok s :
  Forall (λ c, isna c || is_num c = true) s → ∃ t, series_mean s = Ok t.
Proof.
  intros [l Hl]%numbers_Ok. unfold series_mean. rewrite Hl. simpl. eauto.
Qed.

Lemma numeric_getitem df k :
  numeric df k → Forall (λ c, isna c || is_num c = true) (at_label k <$> rows df).
Proof. unfold numeric. by rewrite Forall_fmap. Qed.

Lemma elem_of_take_at {A} (l : list A) idx x : x ∈ take_at l idx → x ∈ l.
Proof.
  unfold take_at. rewrite list_elem_of_omap. intros (i & _ & Hi).
  by eapply list_elem_of_lookup_2.
Qed.

Section NoException.
Variable argsort : list Z → list nat.

Lemma nargsort_Ok items ascending :
Forall (λ c, isna c || is_num c = true) items →
∃ indexer, nargsort argsort items ascending = Ok indexer.
Proof.
intros H. unfold nargsort.
assert (forallb (λ c, isna c || is_num c) items = true) as ->; [|eauto].
apply forallb_forall. intros c Hc. rewrite Forall_forall in H.
apply H. by apply list_elem_of_In.
Qed.

Lemma sort_values_Ok df k ascending :
k ∈ columns df → numeric df k →
∃ q, sort_values argsort df k ascending = Ok q
     ∧ columns q = columns df
     ∧ ∀ r, r ∈ rows q → r ∈ rows df.
Proof.
intros Hk Hnum. unfold sort_values, getitem.
rewrite (proj2 (has_column_true _ _) Hk). simpl.
destruct (nargsort_Ok (at_label k <$> rows df) ascending) as [indexer ->].
{ by apply numeric_getitem. }
simpl. eexists. split; [done|]. split; [done|]. simpl.
intros r. apply elem_of_take_at.
Qed.

Lemma value_counts_Ok df k :
k ∈ columns df → k ≠ "count" →
∃ q, value_counts argsort df k = Ok q
     ∧ columns q = [k; "count"]
     ∧ ∀ r, r ∈ rows q →
            (∃ c, at_label "count" r = Num c)
            ∧ at_label k r ≠ NaN
            ∧ at_label k r ∈ at_label k <$> rows df.
Proof.
intros Hk Hne. unfold value_counts, getitem.
rewrite (proj2 (has_column_true _ _) Hk). simpl.
set (s := at_label k <$> rows df).
set (base := {| columns := [k; "count"]; rows := _ |}).
assert (∀ r, r ∈ rows base →
            (∃ c, at_label "count" r = Num c)
            ∧ at_label k r ≠ NaN ∧ at_label k r ∈ s) as Hbase.
{ intros r. simpl. rewrite list_elem_of_fmap. intros (v & -> & Hv).
  apply elem_of_unique, elem_of_dropna in Hv as [Hv Hna].
  rewrite at_label_insert_eq, at_label_insert_ne by done.
  unfold at_label. rewrite lookup_singleton_eq. simpl. eauto. }
destruct (sort_values_Ok base "count" false) as (q & -> & Hc & Hr).
{ simpl. set_solver. }
{ unfold numeric. apply Forall_forall. intros r Hin.
  destruct (Hbase r Hin) as [[c ->] _]. done. }
exists q. split; [done|]. split; [done|]. intros r Hin. apply Hbase. by apply Hr.
Qed.
End NoException.

Lemma mapM_Ok {A B} (f : A → result B) (P : B → Prop) l :
  (∀ a, a ∈ l → ∃ b, f a = Ok b ∧ P b) →
  ∃ bs, mapM f l = Ok bs ∧ Forall P bs.
Proof.
  induction l as [|a l IH]; intros H; simpl; [by exists []|].
  destruct (H a) as (b & -> & Hb); [set_solver|].
  destruct IH as (bs & -> & Hbs); [set_solver|].
  simpl. eauto.
Qed.

Lemma sum_columns_Ok vals grp : ∀ acc,
  Forall (λ v, Forall (λ c, isna c || is_num c = true) (at_label v <$> grp)) vals →
  ∃ r, sum_columns vals grp acc = Ok r
       ∧ ∀ k, (k ∈ vals ∨ ∃ t, at_label k acc = Num t) → ∃ t, at_label k r = Num t.
Proof.
  induction vals as [|v vals IH]; intros acc H; simpl.
  - exists acc. split; [done|]. intros k [Hk|Hk]; [set_solver|done].
  - apply Forall_cons in H as [Hv H].
    destruct (series_sum_Ok _ Hv) as [t ->]. simpl.
    destruct (IH (<[v := Num t]> acc) H) as (r & -> & Hr).
    exists r. split; [done|]. intros k Hk. apply Hr.
    destruct (decide (k = v)) as [->|Hne].
    + right. rewrite at_label_insert_eq. eauto.
    + destruct Hk as [Hk|[t' Hk]]; [set_solver|].
      right. rewrite at_label_insert_ne by done. eauto.
Qed.

Lemma numeric_sublist df df' k :
  rows df' `sublist_of` rows df → numeric df k → numeric df' k.
Proof.
  unfold numeric. intros Hsub H. apply Forall_forall. intros r Hr.
  rewrite Forall_forall in H. apply H. by eapply elem_of_sublist.
Qed.

Lemma groupby_sum_Ok df by_ vals :
  by_ ∈ columns df → Forall (λ v, v ∈ columns df) vals →
  Forall (numeric df) vals →
  ∃ q, groupby_sum df by_ vals = Ok q
       ∧ columns q = by_ :: vals
       ∧ Forall (numeric q) vals.
Proof.
  intros Hby Hvals Hnum. unfold groupby_sum.
  rewrite check_columns_Ok by (by constructor). simpl.
  destruct (mapM_Ok
    (λ g, sum_columns vals (group_rows [by_] (rows df) g) (key_row [by_] g))
    (λ r, ∀ k, k ∈ vals → ∃ t, at_label k r = Num t)
    (group_keys [by_] (rows df))) as (rs & -> & Hrs).
  { intros g _.
    destruct (sum_columns_Ok vals (group_rows [by_] (rows df) g) (key_row [by_] g))
      as (r & Hr & Hk).
    - eapply Forall_impl; [exact Hnum|]. intros v Hv. simpl in Hv.
      rewrite Forall_fmap. apply Forall_forall. intros r Hr.
      unfold group_rows in Hr. apply list_elem_of_filter in Hr as [_ Hr].
      unfold numeric in Hv. rewrite Forall_forall in Hv. by apply Hv.
    - exists r. split; [done|]. intros k Hin. apply Hk. by left. }
  simpl. eexists. split; [done|]. split; [done|].
  apply Forall_forall. intros v Hv. unfold numeric. simpl.
  eapply Forall_impl; [exact Hrs|]. intros r Hr. simpl in Hr.
  destruct (Hr v Hv) as [t ->]. done.
Qed.

Lemma set_columns_Ok names df :
  length names = length (columns df) →
  ∃ q, set_columns names df = Ok q ∧ columns q = names
       ∧ rows q = (λ r : gmap string cell,
                     list_to_map (zip names ((λ k, at_label k r) <$> columns df)))
                  <$> rows df.
Proof.
  intros H. unfold set_columns. rewrite bool_decide_true by done. eauto.
Qed.

Section ViewsNoException.
Variable argsort : list Z → list nat.

Lemma q1_top_Ok view :
"Country/Region" ∈ columns view → "Aircraft" ∈ columns view →
∃ q, q1_top argsort view = Ok q.
Proof.
intros H1 H2. unfold q1_top, q1, groupby_size.
rewrite check_columns_Ok by (repeat constructor; done). simpl.
edestruct (sort_values_Ok argsort) as (q & -> & _); [| |simpl; eauto].
- simpl. set_solver.
- unfold numeric. simpl. rewrite Forall_fmap. apply Forall_true.
  intros g. simpl. by rewrite at_label_insert_eq.
Qed.

Lemma counts_two_columns_Ok view k name n :
k ∈ columns view → k ≠ "count" →
∃ q, (q ← value_counts argsort view k; set_columns [name; "Crashes"] (head n q))
     = Ok q
     ∧ columns q = [name; "Crashes"]
     ∧ ∀ r, r ∈ rows q → at_label name r ≠ NaN
                         ∧ at_label name r ∈ at_label k <$> rows view.
Proof.
intros Hk Hne.
destruct (value_counts_Ok argsort view k Hk Hne) as (q & -> & Hc & Hr). simpl.
destruct (set_columns_Ok [name; "Crashes"] (head n q)) as (q' & -> & Hc' & Hr').
{ simpl. by rewrite Hc. }
exists q'. split; [done|]. split; [done|]. intros r. rewrite Hr'. simpl.
rewrite list_elem_of_fmap. intros (r0 & -> & Hin). rewrite Hc. simpl.
rewrite at_label_insert_eq.
apply Hr. eapply elem_of_sublist; [exact Hin|apply sublist_take].
Qed.

Lemma q4_Ok view :
"Year" ∈ columns view → numeric view "Year" →
∃ chart table, q4 argsort view = Ok chart
               ∧ sort_values argsort chart "Year" true = Ok table.
Proof.
intros Hk Hnum. unfold q4.
destruct (counts_two_columns_Ok view "Year" "Year" 10 Hk) as (q & -> & Hc & Hr);
  [done|].
destruct (sort_values_Ok argsort q "Year" true) as (t & Ht & _); [| |eauto].
- rewrite Hc. set_solver.
- unfold numeric. apply Forall_forall. intros r [Hna Hin]%Hr.
  apply list_elem_of_fmap in Hin as (r0 & Heq & Hr0).
  unfold numeric in Hnum. rewrite Forall_forall in Hnum.
  specialize (Hnum r0 Hr0). by rewrite Heq.
Qed.

Lemma sums_sorted_Ok view by_ vals k n :
by_ ∈ columns view → Forall (λ v, v ∈ columns view) vals →
Forall (numeric view) vals → k ∈ vals →
∃ q, (q ← groupby_sum view by_ vals; q ← sort_values argsort q k false;
      Ok (head n q)) = Ok q
     ∧ ∃ q', (q ← groupby_sum view by_ vals; sort_values argsort q k false) = Ok q'.
Proof.
intros Hby Hvals Hnum Hk.
destruct (groupby_sum_Ok view by_ vals Hby Hvals Hnum) as (q & -> & Hc & Hn).
simpl. rewrite Forall_forall in Hn.
destruct (sort_values_Ok argsort q k false) as (t & -> & _); [| |simpl; eauto].
- rewrite Hc. set_solver.
- by apply Hn.
Qed.
End ViewsNoException.

Lemma filters_Ok df :
  "Country/Region" ∈ columns df → "Aircraft" ∈ columns df →
  "Operator" ∈ columns df →
  ∃ country aircraft operator year,
    filters df = Ok [("Country/Region", country); ("Aircraft", aircraft);
                     ("Operator", operator); ("Year", year)]
    ∧ (has_column df "Year" = false → year = []).
Proof.
  intros H1 H2 H3. unfold filters, getitem.
  rewrite (proj2 (has_column_true _ _) H1), (proj2 (has_column_true _ _) H2),
    (proj2 (has_column_true _ _) H3). simpl.
  destruct (has_column df "Year"); simpl; do 4 eexists; (split; [reflexivity|]); done.
Qed.

Lemma reduction_Ok {A} (f : list cell → result A) view k :
  (∀ s, Forall (λ c, isna c || is_num c = true) s → ∃ t, f s = Ok t) →
  k ∈ columns view → numeric view k →
  ∃ t, (s ← getitem view k; f s) = Ok t.
Proof.
  intros Hf Hk Hnum. unfold getitem.
  rewrite (proj2 (has_column_true _ _) Hk). simpl.
  apply Hf. by apply numeric_getitem.
Qed.

Section DashboardNoException.
Variable argsort : list Z → list nat.
Variable multiselect : string → list cell → list cell.
Hypothesis multiselect_ok : picks_options multiselect.

(** On a frame that has the columns the script reads, with numbers where it
  computes, no line of the script raises. *)
Lemma dashboard_succeeds df :
Forall (λ k, k ∈ columns df)
  ["Country/Region"; "Aircraft"; "Operator"; "Location"; "Aboard"; "Fatalities"] →
numeric df "Fatalities" → numeric df "Aboard" → numeric df "Year" →
∃ d, dashboard argsort multiselect df = Ok d.
Proof.
intros Hcols Hf Ha Hy.
repeat (apply Forall_cons in Hcols as [? Hcols]).
destruct (filters_Ok df) as (c & a & o & y & Hopts & Hyear); [done..|].
unfold dashboard. rewrite Hopts. simpl.
rewrite filtered_df_spec.
2:{ unfold selectable, selected_filters. simpl.
    repeat (apply Forall_cons; split; [by right|]).
    apply Forall_cons. split; [|constructor]. simpl.
    destruct (has_column df "Year") eqn:E.
    - right. by apply has_column_true.
    - left. rewrite Hyear by done.
      pose proof (multiselect_ok "Year" []) as Hsub.
      destruct (multiselect "Year" []) as [|x l]; [done|]. set_solver. }
simpl. set (view := {| columns := columns df; rows := _ |}).
assert (rows view `sublist_of` rows df) as Hsub by apply sublist_filter.
assert (∀ k, numeric df k → numeric view k) as Hnum
  by (intros k; by apply numeric_sublist).
assert (∀ k, k ∈ columns df → k ∈ columns view) as Hcol by done.
destruct (reduction_Ok series_sum view "Fatalities" series_sum_Ok)
  as [tf Htf]; [auto..|].
unfold total_fatalities at 1. rewrite Htf. simpl.
destruct (reduction_Ok series_sum view "Aboard" series_sum_Ok)
  as [ta Hta]; [auto..|].
unfold total_aboard. rewrite Hta. simpl.
destruct (reduction_Ok series_mean view "Fatalities" series_mean_Ok)
  as [avg Havg]; [auto..|].
unfold avg_fatalities. rewrite Havg. simpl.
destruct (reduction_Ok series_sum df "Fatalities" series_sum_Ok)
  as [all Hall]; [auto..|].
unfold percent_fatalities. rewrite Hall. simpl.
match goal with
| |- context [if (0 <? all)%Z then ?x else ?y] =>
    assert (∃ pct, (if (0 <? all)%Z then x else y) = Ok pct) as [pct ->]
      by (destruct (0 <? all)%Z; simpl; eauto)
end.
simpl.
destruct (q1_top_Ok argsort view) as [x1 ->]; [auto..|]. simpl.
unfold q2, q3.
destruct (counts_two_columns_Ok argsort view "Aircraft" "Aircraft" 6)
  as (x2 & -> & _); [auto..|done|]. simpl.
destruct (counts_two_columns_Ok argsort view "Operator" "Operator" 5)
  as (x3 & -> & _); [auto..|done|]. simpl.
assert (∃ x4, (if has_column view "Year"
               then chart ← q4 argsort view;
                    table ← sort_values argsort chart "Year" true;
                    Ok (Some (table, chart))
               else Ok None) = Ok x4) as [x4 ->].
{ destruct (has_column view "Year") eqn:E; [|eauto].
  apply has_column_true in E.
  destruct (q4_Ok argsort view E (Hnum _ Hy)) as (chart & table & -> & Ht).
  simpl. rewrite Ht. simpl. eauto. }
simpl. unfold q5, q6, q10.
destruct (sums_sorted_Ok argsort view "Location" ["Fatalities"] "Fatalities" 5)
  as (x5 & -> & _); [auto| | |set_solver|].
{ repeat constructor; auto. }
{ repeat constructor; auto. }
simpl.
destruct (sums_sorted_Ok argsort view "Country/Region" ["Aboard"; "Fatalities"]
            "Aboard" 5) as (x6 & -> & _); [auto| | |set_solver|].
{ repeat constructor; auto. }
{ repeat constructor; auto. }
simpl.
assert (∃ x10, (if has_column view "Month"
                then v ← (q ← groupby_sum view "Month" ["Fatalities"];
                          sort_values argsort q "Fatalities" false);
                     Ok (Some v)
                else Ok None) = Ok x10) as [x10 ->].
{ destruct (has_column view "Month") eqn:E; [|eauto].
  apply has_column_true in E.
  destruct (sums_sorted_Ok argsort view "Month" ["Fatalities"] "Fatalities" 0)
    as (_ & _ & q' & ->); [auto| | |set_solver|].
  { repeat constructor; auto. }
  { repeat constructor; auto. }
  simpl. eauto. }
simpl. eauto.
Qed.
End DashboardNoException.

(** ** The loader raises nothing on a usable source *)

Lemma fillna_row_other csv (r : gmap string cell) k :
  k ∉ categorical → fillna_row csv categorical_defaults r !! k = r !! k.
Proof.
  intros Hk. unfold fillna_row, categorical_defaults, categorical in *.
  cbn [foldl fst snd].
  repeat match goal with
  | |- context [has_column csv ?x] => destruct (has_column csv x)
  end;
  rewrite ?lookup_alter_ne; try done; intros ?; subst; apply Hk; set_solver.
Qed.

Lemma fillna_row_is_Some csv value (r : gmap string cell) k :
  is_Some (fillna_row csv value r !! k) ↔ is_Some (r !! k).
Proof.
  unfold fillna_row. revert r. induction value as [|[k' v] value IH]; intros r.
  - done.
  - simpl. rewrite IH. destruct (has_column csv k'); [|done].
    destruct (decide (k' = k)) as [->|Hne].
    + rewrite lookup_alter_eq. by rewrite fmap_is_Some.
    + by rewrite lookup_alter_ne.
Qed.

Lemma fatality_columns_Forall df df' (P : gmap string cell → Prop) :
  (∀ r c, P r → P (<["Air" := c]> (delete "Fatalities (air)" r))) →
  (∀ r c, P r → P (<["Air" := c]> r)) →
  (∀ r c, P r → P (<["Ground" := c]> r)) →
  fatality_columns df = Ok df' → Forall P (rows df) → Forall P (rows df').
Proof.
  unfold fatality_columns. intros P1 P2 P3 H Hall. inv_bind H.
  assert (Forall P (rows v)) as Hv.
  { destruct (has_column df "Fatalities (air)").
    - unfold rename in E. destruct (_ && _); simplify_eq/=.
      rewrite Forall_fmap. eapply Forall_impl; [exact Hall|].
      intros r Hr. simpl. destruct (r !! "Fatalities (air)"); auto.
    - simplify_eq/=. rewrite Forall_fmap. eapply Forall_impl; [exact Hall|].
      intros r Hr. simpl. auto. }
  simplify_eq. destruct (negb _); [|done]. simpl.
  rewrite Forall_fmap. eapply Forall_impl; [exact Hv|]. intros r Hr. simpl. auto.
Qed.

Lemma fatality_columns_Ok df :
  well_formed df → numeric df "Fatalities (air)" → numeric df "Ground" →
  ("Fatalities (air)" ∈ columns df → "Air" ∉ columns df) →
  ∃ df', fatality_columns df = Ok df'
         ∧ "Air" ∈ columns df' ∧ "Ground" ∈ columns df'
         ∧ numeric df' "Air" ∧ numeric df' "Ground".
Proof.
  intros Hwf Hair Hground Hboth. unfold fatality_columns.
  assert (∃ v, (if has_column df "Fatalities (air)"
                then rename df "Fatalities (air)" "Air"
                else Ok (setitem_scalar df "Air" (Num 0))) = Ok v
               ∧ "Air" ∈ columns v ∧ numeric v "Air" ∧ numeric v "Ground")
    as (v & -> & Hc & Hna & Hng).
  { destruct (has_column df "Fatalities (air)") eqn:E.
    - apply has_column_true in E. unfold rename.
      rewrite (proj2 (has_column_false _ _) (Hboth E)). simpl.
      eexists. split; [done|]. split; [|split].
      + simpl. apply list_elem_of_fmap. exists "Fatalities (air)".
        by rewrite decide_True.
      + unfold numeric in *. simpl. rewrite Forall_fmap.
        apply Forall_forall. intros r Hr. simpl.
        rewrite Forall_forall in Hair. specialize (Hair r Hr).
        unfold well_formed in Hwf. rewrite Forall_forall in Hwf.
        specialize (Hwf r Hr). rewrite Forall_forall in Hwf.
        destruct (Hwf _ E) as [c Hcell]. rewrite Hcell.
        rewrite at_label_insert_eq. unfold at_label in Hair.
        by rewrite Hcell in Hair.
      + unfold numeric in *. simpl. rewrite Forall_fmap.
        eapply Forall_impl; [exact Hground|]. intros r Hr. simpl in *.
        destruct (r !! "Fatalities (air)"); [|done].
        rewrite at_label_insert_ne by done. unfold at_label in *.
        by rewrite lookup_delete_ne.
    - eexists. split; [done|]. split; [|split].
      + apply has_column_true. rewrite has_column_setitem_scalar.
        rewrite bool_decide_true by done. apply orb_true_r.
      + unfold numeric. simpl. rewrite Forall_fmap. apply Forall_true.
        intros r. simpl. by rewrite at_label_insert_eq.
      + unfold numeric in *. simpl. rewrite Forall_fmap.
        eapply Forall_impl; [exact Hground|]. intros r Hr. simpl in *.
        by rewrite at_label_insert_ne. }
  simpl. eexists. split; [done|].
  destruct (has_column v "Ground") eqn:E; cbn [negb].
  - apply has_column_true in E. done.
  - split; [|split; [|split]].
    + apply has_column_true. rewrite has_column_setitem_scalar.
      apply has_column_true in Hc. by rewrite Hc.
    + apply has_column_true. rewrite has_column_setitem_scalar.
      rewrite bool_decide_true by done. apply orb_true_r.
    + unfold numeric in *. simpl. rewrite Forall_fmap.
      eapply Forall_impl; [exact Hna|]. intros r Hr. simpl in *.
      by rewrite at_label_insert_ne.
    + unfold numeric. simpl. rewrite Forall_fmap. apply Forall_true.
      intros r. simpl. by rewrite at_label_insert_eq.
Qed.

Lemma series_add_Ok s1 s2 :
  Forall (λ c, is_num c = true) s1 → Forall (λ c, is_num c = true) s2 →
  ∃ s, series_add s1 s2 = Ok s.
Proof.
  intros H1. revert s2. induction H1 as [|a s1 Ha _ IH]; intros s2 H2; simpl.
  - eauto.
  - destruct H2 as [|b s2 Hb H2]; [eauto|].
    destruct a, b; try done. simpl.
    destruct (IH s2 H2) as [s ->]. simpl. eauto.
Qed.

Lemma add_fatalities_Ok df :
  "Air" ∈ columns df → "Ground" ∈ columns df →
  numeric df "Air" → numeric df "Ground" →
  ∃ df', add_fatalities df = Ok df'.
Proof.
  intros Ha Hg Hna Hng. unfold add_fatalities, getitem.
  rewrite (proj2 (has_column_true _ _) Ha), (proj2 (has_column_true _ _) Hg).
  simpl.
  destruct (series_add_Ok (series_fillna (Num 0) (at_label "Air" <$> rows df))
              (series_fillna (Num 0) (at_label "Ground" <$> rows df)))
    as [s ->]; [| |simpl; eauto].
  - unfold series_fillna. rewrite !Forall_fmap.
    eapply Forall_impl; [exact Hna|]. intros r Hr. simpl in *.
    destruct (at_label "Air" r); done.
  - unfold series_fillna. rewrite !Forall_fmap.
    eapply Forall_impl; [exact Hng|]. intros r Hr. simpl in *.
    destruct (at_label "Ground" r); done.
Qed.

Lemma convert_date_Ok parse_datetime df :
  ∃ df', convert_date parse_datetime df = Ok df'.
Proof.
  unfold convert_date. destruct (has_column df "Date") eqn:E; [|eauto].
  unfold getitem. rewrite E. simpl.
  rewrite has_column_setitem, E. simpl.
  rewrite !has_column_setitem, E. simpl. eauto.
Qed.

Lemma setitem_Forall_new df k s (P : gmap string cell → Prop) (Q : cell → Prop) :
  (∀ r c, Q c → P (<[k := c]> r)) →
  Forall Q s → Forall P (rows (setitem df k s)).
Proof.
  intros HP Hs. simpl. generalize (rows df). intros rs. revert rs.
  induction Hs as [|c s Hc _ IH]; intros [|r rs]; simpl; constructor; auto.
Qed.

Lemma consistent_is_num r :
  fatalities_consistent r →
  isna (at_label "Air" r) || is_num (at_label "Air" r) = true →
  isna (at_label "Ground" r) || is_num (at_label "Ground" r) = true →
  is_num (at_label "Fatalities" r) = true.
Proof.
  unfold fatalities_consistent. intros H Ha Hg.
  destruct (at_label "Air" r), (at_label "Ground" r); simpl in *; try done;
    injection H as <-; done.
Qed.

Section LoaderNoException.
Variable parse_datetime : cell → option Timestamp.

Lemma convert_date_year df df' :
has_column df "Date" = true →
convert_date parse_datetime df = Ok df' → numeric df' "Year".
Proof.
unfold convert_date. intros Hd H. rewrite Hd in H. inv_bind H. simplify_eq.
unfold numeric. apply setitem_Forall.
{ intros r c Hr. by rewrite at_label_insert_ne. }
apply (setitem_Forall_new _ _ _ _ (λ c, isna c || is_num c = true)).
- intros r c Hc. by rewrite at_label_insert_eq.
- rewrite Forall_fmap. apply Forall_true. intros c. simpl. by destruct c.
Qed.

Lemma load_data_numeric_other csv df k :
load_data parse_datetime csv = Ok df →
k ∉ categorical → k ∉ ["Fatalities (air)"; "Air"; "Ground"; "Fatalities"] →
(k ≠ "Date" ∧ k ≠ "Year" ∧ k ≠ "Month") ∨ "Date" ∉ columns csv →
numeric csv k → numeric df k.
Proof.
unfold load_data. intros H Hk1 Hk2 Hk3 Hnum. inv_bind H.
assert (numeric v0 k) as Hv0.
{ unfold numeric.
  eapply add_fatalities_Forall; [|exact E0|].
  { intros r c Hr. rewrite at_label_insert_ne; [done|set_solver]. }
  eapply fatality_columns_Forall; [| | |exact E|].
  - intros r c Hr. rewrite at_label_insert_ne by set_solver.
    unfold at_label in *. rewrite lookup_delete_ne; [done|set_solver].
  - intros r c Hr. rewrite at_label_insert_ne; [done|set_solver].
  - intros r c Hr. rewrite at_label_insert_ne; [done|set_solver].
  - cbn [rows fillna]. rewrite Forall_fmap. eapply Forall_impl; [exact Hnum|].
    intros r Hr. unfold compose, at_label in *.
    by rewrite fillna_row_other. }
destruct Hk3 as [(? & ? & ?)|Hno].
- unfold numeric. eapply convert_date_Forall; [| | |exact H|exact Hv0];
    intros r c Hr; by rewrite at_label_insert_ne.
- unfold convert_date in H.
  assert (has_column v0 "Date" = false) as Hd.
  { rewrite (add_fatalities_has _ _ _ E0) by done.
    rewrite (fatality_columns_has _ _ _ E) by done. simpl.
    by apply has_column_false. }
  rewrite Hd in H. by simplify_eq.
Qed.

Lemma load_data_succeeds csv :
well_formed csv → usable csv →
∃ df, load_data parse_datetime csv = Ok df
      ∧ Forall (λ k, k ∈ columns df)
          ["Country/Region"; "Aircraft"; "Operator"; "Location"; "Aboard";
           "Fatalities"]
      ∧ numeric df "Fatalities" ∧ numeric df "Aboard" ∧ numeric df "Year".
Proof.
intros Hwf (Hcols & HnAb & HnAir & HnG & HY & Hboth).
set (df0 := fillna csv categorical_defaults).
assert (well_formed df0) as Hwf0.
{ unfold well_formed in *. cbn [rows columns fillna df0]. rewrite Forall_fmap.
  eapply Forall_impl; [exact Hwf|]. intros r Hr. cbn beta.
  unfold compose.
  eapply Forall_impl; [exact Hr|]. intros k Hk. cbn beta in *.
  by apply fillna_row_is_Some. }
assert (∀ k, k ∉ categorical → numeric csv k → numeric df0 k) as Hn0.
{ intros k Hk Hn. unfold numeric in *. cbn [rows fillna df0].
  rewrite Forall_fmap.
  eapply Forall_impl; [exact Hn|]. intros r Hr.
  unfold compose, at_label in *. by rewrite fillna_row_other. }
destruct (fatality_columns_Ok df0) as (df1 & E1 & Ha1 & Hg1 & Hna1 & Hng1);
  [done|apply Hn0; [unfold categorical; set_solver|done]..|done|].
destruct (add_fatalities_Ok df1) as [df2 E2]; [done..|].
destruct (convert_date_Ok parse_datetime df2) as [df E3].
assert (load_data parse_datetime csv = Ok df) as Hload.
{ unfold load_data. fold df0. rewrite E1. simpl. rewrite E2. simpl. exact E3. }
exists df. split; [done|].
assert (∀ k, k ∈ columns csv →
             k ∉ ["Fatalities (air)"; "Air"; "Ground"; "Fatalities"] →
             k ∈ columns df) as Hkeep.
{ intros k Hk Hne. eapply convert_date_columns; [exact E3|].
  apply has_column_true.
  rewrite (add_fatalities_has _ _ _ E2) by set_solver.
  rewrite (fatality_columns_has _ _ _ E1) by set_solver.
  by apply has_column_true. }
split.
{ repeat (apply Forall_cons in Hcols as [? Hcols]).
  repeat (apply Forall_cons; split; [apply Hkeep; [done|set_solver]|]).
  apply Forall_cons. split; [|constructor].
  by eapply load_data_has_Fatalities. }
split.
{ assert (numeric df "Air" ∧ numeric df "Ground") as [Hna Hng].
  { split; unfold numeric.
    - eapply convert_date_Forall; [| | |exact E3|];
        try (intros r c Hr; by rewrite at_label_insert_ne).
      eapply add_fatalities_Forall; [|exact E2|exact Hna1].
      intros r c Hr. by rewrite at_label_insert_ne.
    - eapply convert_date_Forall; [| | |exact E3|];
        try (intros r c Hr; by rewrite at_label_insert_ne).
      eapply add_fatalities_Forall; [|exact E2|exact Hng1].
      intros r c Hr. by rewrite at_label_insert_ne. }
  pose proof (load_data_consistent _ _ _ Hload) as Hc.
  unfold numeric in *. apply Forall_forall. intros r Hr.
  rewrite Forall_forall in Hc, Hna, Hng.
  specialize (Hc r Hr). specialize (Hna r Hr). specialize (Hng r Hr).
  simpl. rewrite (consistent_is_num r Hc Hna Hng). apply orb_true_r. }
split.
{ apply (load_data_numeric_other csv df "Aboard" Hload);
    [unfold categorical; set_solver|set_solver|by left|done]. }
destruct (decide ("Date" ∈ columns csv)) as [Hd|Hd].
- eapply convert_date_year; [|exact E3].
  rewrite (add_fatalities_has _ _ _ E2) by done.
  rewrite (fatality_columns_has _ _ _ E1) by done.
  by apply has_column_true.
- destruct HY as [?|HY]; [done|].
  apply (load_data_numeric_other csv df "Year" Hload);
    [unfold categorical; set_solver|set_solver|by right|done].
Qed.
End LoaderNoException.

(** ** A source without date column *)

Lemma select_first_country_picks : picks_options select_first_country.
Proof.
  intros key options. unfold select_first_country. case_decide; [|set_solver].
  intros x Hx. eapply elem_of_sublist; [exact Hx|apply sublist_take].
Qed.

Lemma select_nothing_picks : picks_options select_nothing.
Proof. intros key options. unfold select_nothing. set_solver. Qed.

(** C10 (as the code has it).  On a usable source without date column the
    script raises nothing and shows the KPIs and the views; the year
    filter has no option and Q4 is left out when the source has no Year
    column of its own, and Q10 is left out when it has no Month column of
    its own. *)
Theorem no_date_column parse_datetime argsort multiselect csv (h : store) :
  well_formed csv → usable csv → picks_options multiselect →
  "Date" ∉ columns csv →
  ∃ d h',
    main parse_datetime argsort multiselect (Ok csv) h = Ok (d, h')
    ∧ ("Year" ∉ columns csv →
       options_of "Year" (out_filters d) = [] ∧ out_q4 d = None)
    ∧ ("Month" ∉ columns csv → out_q10 d = None).
Proof.
  intros Hwf Hus Hpick Hno.
  destruct (load_data_succeeds parse_datetime csv Hwf Hus)
    as (df & Hload & Hcols & Hf & Ha & Hy).
  destruct (dashboard_succeeds argsort multiselect Hpick df Hcols Hf Ha Hy)
    as [d Hd].
  pose proof (script_spec argsort multiselect (h ++ [df]) (length h) df
                (lookup_snoc_eq _ _)) as Hs.
  rewrite Hd in Hs. destruct Hs as (h' & Hrun & _).
  exists d, h'. split.
  { unfold main. rewrite run_lift_bind, run_lift_bind, Hload, run_alloc_bind.
    exact Hrun. }
  destruct (dashboard_Ok argsort multiselect df d Hd)
    as (view & Hopts & Hview & _ & _ & _ & _ & _ & _ & _ & _ & _ & _ & H4 & H10).
  apply filtered_df_sublist in Hview as [Hvc _].
  assert (∀ k, has_column view k = has_column df k) as Hsame.
  { intros k. unfold has_column. by rewrite Hvc. }
  split.
  - intros Hny.
    assert (has_column df "Year" = false) as Hdy.
    { rewrite (load_data_without_date _ _ _ "Year" Hload Hno) by auto.
      by apply has_column_false. }
    split.
    + repeat (apply Forall_cons in Hcols as [? Hcols]).
      destruct (filters_Ok df) as (c & a & o & y & Hopts' & Hyear); [done..|].
      rewrite Hopts' in Hopts. injection Hopts as <-.
      rewrite (Hyear Hdy). reflexivity.
    + by rewrite Hsame, Hdy in H4.
  - intros Hnm.
    assert (has_column df "Month" = false) as Hdm.
    { rewrite (load_data_without_date _ _ _ "Month" Hload Hno) by auto.
      by apply has_column_false. }
    by rewrite Hsame, Hdm in H10.
Qed.

Lemma no_date_column_witness :
  ∃ d h',
    main no_dates argsort_later_first select_first_country (Ok sample_csv) []
    = Ok (d, h')
    ∧ ("Year" ∉ columns sample_csv →
       options_of "Year" (out_filters d) = [] ∧ out_q4 d = None)
    ∧ ("Month" ∉ columns sample_csv → out_q10 d = None).
Proof.
  apply (no_date_column no_dates argsort_later_first select_first_country
           sample_csv []).
  - by_compute.
  - by_compute.
  - exact select_first_country_picks.
  - by_compute.
Defined.

(** C10 as stated fails: a source without date column may bring Year and
    Month columns of its own; the year filter then has options, and Q4 and
    Q10 are shown. *)
Lemma no_date_column_but_year_and_month :
  ("Date" ∉ columns year_csv)
  ∧ well_formed year_csv ∧ usable year_csv
  ∧ ∃ d h',
      main no_dates argsort_later_first select_nothing (Ok year_csv) []
      = Ok (d, h')
      ∧ options_of "Year" (out_filters d) = [Num 2001; Num 1999]
      ∧ is_Some (out_q4 d)
      ∧ is_Some (out_q10 d).
Proof.
  split; [by_compute|]. split; [by_compute|]. split; [by_compute|].
  set (o := outcome_of (main no_dates argsort_later_first select_nothing
                          (Ok year_csv) [])).
  exists (fst o), (snd o).
  split; [vm_compute; reflexivity|].
  split; [vm_compute; reflexivity|].
  split; by_compute.
Qed.

(** * Further properties of the script *)

(** ** The loader beyond the fatality columns *)

Lemma rename_lookup_exact df old new df' i r :
  rename df old new = Ok df' → rows df !! i = Some r →
  rows df' !! i = Some (match r !! old with
                        | Some c => <[new := c]> (delete old r)
                        | None => r
                        end).
Proof.
  unfold rename. destruct (_ && _); [done|]. intros [= <-] H. simpl.
  by rewrite list_lookup_fmap, H.
Qed.


Lemma convert_date_has parse_datetime df df' k :
  convert_date parse_datetime df = Ok df' →
  k ≠ "Date" → k ≠ "Year" → k ≠ "Month" →
  has_column df' k = has_column df k.
Proof.
  unfold convert_date. intros H H1 H2 H3.
  destruct (has_column df "Date"); [|by simplify_eq].
  inv_bind H. simplify_eq. rewrite !has_column_setitem.
  rewrite !bool_decide_false by done. by rewrite !orb_false_r.
Qed.

Section LoaderMore.
Variable parse_datetime : cell → option Timestamp.



(** X2.  A column that is neither one of the four categorical fields nor
    one of the labels lines 18-33 write goes through load_data as it is:
    reading it from the loaded frame gives what reading it from the source
    gives, KeyError included. *)
Theorem other_columns_pass_through csv df k :
  load_data parse_datetime csv = Ok df →
  k ∉ categorical → k ∉ derived_labels →
  getitem df k = getitem csv k.
Proof.
  intros Hload Hk1 Hk2.
  assert (has_column df k = has_column csv k) as Hhas.
  { unfold load_data in Hload. inv_bind Hload.
    rewrite (convert_date_has _ _ _ _ Hload),
      (add_fatalities_has _ _ _ E0), (fatality_columns_has _ _ _ E);
      try done; intros ->; apply Hk2; unfold derived_labels; set_solver. }
  unfold getitem. rewrite Hhas. destruct (has_column csv k); [|done]. f_equal.
  apply list_eq. intros i. rewrite !list_lookup_fmap.
  destruct (rows csv !! i) as [r|] eqn:Hr.
  - destruct (load_data_lookup _ _ _ _ _ Hload Hr) as (r' & -> & Hk). simpl.
    unfold at_label. by rewrite (Hk k Hk2), fillna_row_other.
  - apply lookup_ge_None in Hr.
    rewrite (proj2 (lookup_ge_None (rows df) i)); [done|].
    rewrite (load_data_length _ _ _ Hload). done.
Qed.
End LoaderMore.


Lemma other_columns_pass_through_witness :
  getitem sample_df "Aboard" = getitem sample_csv "Aboard".
Proof.
  apply (other_columns_pass_through no_dates sample_csv sample_df "Aboard").
  - vm_compute. reflexivity.
  - by_compute.
  - by_compute.
Defined.

(** ** Missing columns and the filter widgets *)

Lemma list_filter_ext_in {A} (P1 P2 : A → Prop)
    `{!∀ x, Decision (P1 x), !∀ x, Decision (P2 x)} (l : list A) :
  Forall (λ x, P1 x ↔ P2 x) l → filter P1 l = filter P2 l.
Proof.
  induction 1 as [|x l Hx _ IH]; [done|]. rewrite !filter_cons, IH.
  destruct (decide (P1 x)), (decide (P2 x)); tauto.
Qed.

Lemma filters_inv df options :
  filters df = Ok options →
  "Country/Region" ∈ columns df ∧ "Aircraft" ∈ columns df
  ∧ "Operator" ∈ columns df
  ∧ options = [("Country/Region", unique (at_label "Country/Region" <$> rows df));
               ("Aircraft", unique (at_label "Aircraft" <$> rows df));
               ("Operator", unique (at_label "Operator" <$> rows df));
               ("Year", if has_column df "Year"
                        then unique (dropna (at_label "Year" <$> rows df))
                        else [])].
Proof.
  unfold filters. intros H. inv_bind H.
  apply getitem_Ok in E as [? ->]. apply getitem_Ok in E0 as [? ->].
  apply getitem_Ok in E1 as [? ->].
  destruct (has_column df "Year") eqn:Hy.
  - inv_bind E2. apply getitem_Ok in E as [_ ->]. by simplify_eq.
  - by simplify_eq.
Qed.

Lemma filters_first_missing df k :
  first_missing df ["Country/Region"; "Aircraft"; "Operator"] = Some k →
  filters df = Raise (KeyError k).
Proof.
  unfold first_missing, filters, getitem. rewrite !filter_cons, filter_nil.
  destruct (has_column df "Country/Region") eqn:E1.
  2:{ apply has_column_false in E1. rewrite decide_True by done.
      by intros [= <-]. }
  apply has_column_true in E1. rewrite (decide_False (P := _ ∉ _)) by auto.
  destruct (has_column df "Aircraft") eqn:E2.
  2:{ apply has_column_false in E2. rewrite decide_True by done.
      by intros [= <-]. }
  apply has_column_true in E2. rewrite (decide_False (P := _ ∉ _)) by auto.
  destruct (has_column df "Operator") eqn:E3.
  2:{ apply has_column_false in E3. rewrite decide_True by done.
      by intros [= <-]. }
  apply has_column_true in E3. rewrite (decide_False (P := _ ∉ _)) by auto.
  done.
Qed.

(** X3.  When the source lacks one of the columns Country/Region, Aircraft
    or Operator, the script raises KeyError for the first one it lacks, at
    lines 45-47, before any KPI or view: all the page gets is the error
    banner. *)
Theorem missing_dimension_column_raises parse_datetime argsort multiselect
    csv df (h : store) k :
  load_data parse_datetime csv = Ok df →
  first_missing csv ["Country/Region"; "Aircraft"; "Operator"] = Some k →
  main parse_datetime argsort multiselect (Ok csv) h = Raise (KeyError k).
Proof.
  intros Hload Hk.
  assert (∀ k', k' ∈ ["Country/Region"; "Aircraft"; "Operator"] →
                has_column df k' = has_column csv k') as Hsame.
  { intros k' Hk'. unfold load_data in Hload. inv_bind Hload.
    rewrite (convert_date_has _ _ _ _ Hload),
      (add_fatalities_has _ _ _ E0), (fatality_columns_has _ _ _ E);
      try done; intros ->; set_solver. }
  assert (first_missing df ["Country/Region"; "Aircraft"; "Operator"] = Some k)
    as Hkdf.
  { rewrite <- Hk. unfold first_missing. f_equal. apply list_filter_ext_in.
    apply Forall_forall. intros k' Hk'. specialize (Hsame k' Hk').
    destruct (has_column csv k') eqn:E.
    - apply has_column_true in Hsame, E. tauto.
    - apply has_column_false in Hsame, E. tauto. }
  unfold main. rewrite run_lift_bind, run_lift_bind, Hload, run_alloc_bind.
  pose proof (script_spec argsort multiselect (h ++ [df]) (length h) df
                (lookup_snoc_eq _ _)) as Hs.
  unfold dashboard in Hs. rewrite (filters_first_missing _ _ Hkdf) in Hs.
  exact Hs.
Qed.

(** X4.  Whatever the user picks among the options shown, the filter loop
    raises nothing: it returns the records that pass the picks, with the
    columns of the dataset. *)
Theorem offered_selection_never_raises multiselect df options :
  picks_options multiselect → filters df = Ok options →
  selectable df (selected_filters multiselect options)
  ∧ filtered_df df (selected_filters multiselect options)
    = Ok {| columns := columns df;
            rows := filter (selects (selected_filters multiselect options))
                           (rows df) |}.
Proof.
  intros Hpick (H1 & H2 & H3 & ->)%filters_inv.
  assert (selectable df (selected_filters multiselect
            [("Country/Region", unique (at_label "Country/Region" <$> rows df));
             ("Aircraft", unique (at_label "Aircraft" <$> rows df));
             ("Operator", unique (at_label "Operator" <$> rows df));
             ("Year", if has_column df "Year"
                      then unique (dropna (at_label "Year" <$> rows df))
                      else [])])) as Hsel.
  { unfold selectable, selected_filters. simpl.
    repeat (apply Forall_cons; split; [by right|]).
    apply Forall_cons. split; [|constructor]. simpl.
    destruct (has_column df "Year") eqn:E.
    - right. by apply has_column_true.
    - left. pose proof (Hpick "Year" []) as Hsub.
      destruct (multiselect "Year" []) as [|x l]; [done|]. set_solver. }
  split; [done|]. by apply filtered_df_spec.
Qed.

Lemma selects_app s1 s2 r : selects (s1 ++ s2) r ↔ selects s1 r ∧ selects s2 r.
Proof. unfold selects. apply Forall_app. Qed.

(** X5.  Filtering a filtered view by a second selection is filtering the
    dataset by both selections at once, and the order in which the
    dimensions are listed does not matter. *)
Theorem filters_compose df s1 s2 :
  selectable df (s1 ++ s2) →
  (∃ view, filtered_df df s1 = Ok view
           ∧ filtered_df view s2 = filtered_df df (s1 ++ s2))
  ∧ filtered_df df (s2 ++ s1) = filtered_df df (s1 ++ s2).
Proof.
  intros Hs. pose proof Hs as [Hs1 Hs2]%Forall_app. split.
  - eexists. split; [by apply filtered_df_spec|].
    rewrite !filtered_df_spec by done. simpl. do 2 f_equal.
    rewrite list_filter_filter. apply list_filter_iff. intros r.
    rewrite selects_app. tauto.
  - rewrite !filtered_df_spec; [|done|by apply Forall_app].
    do 2 f_equal. apply list_filter_iff. intros r. rewrite !selects_app. tauto.
Qed.

(** X6.  Picking every year that is offered is not picking none: as soon as
    one record has a year, the view keeps exactly the records that have
    one, and the records without year are dropped. *)
Theorem picking_every_year_drops_undated df options :
  filters df = Ok options → "Year" ∈ columns df →
  (∃ r, r ∈ rows df ∧ at_label "Year" r ≠ NaN) →
  filtered_df df [("Country/Region", []); ("Aircraft", []); ("Operator", []);
                  ("Year", options_of "Year" options)]
  = Ok {| columns := columns df;
          rows := filter (λ r, at_label "Year" r ≠ NaN) (rows df) |}.
Proof.
  intros (_ & _ & _ & ->)%filters_inv Hy (r0 & Hr0 & Hna0).
  rewrite (proj2 (has_column_true _ _) Hy).
  change (options_of "Year" _) with (unique (dropna (at_label "Year" <$> rows df))).
  set (years := unique (dropna (at_label "Year" <$> rows df))).
  assert (at_label "Year" r0 ∈ years) as Hin.
  { apply elem_of_unique, elem_of_dropna. split; [|done].
    apply list_elem_of_fmap. eauto. }
  rewrite filtered_df_spec.
  2:{ repeat (apply Forall_cons; split; [by left|]).
      apply Forall_cons. split; [by right|constructor]. }
  do 2 f_equal. apply list_filter_ext_in. apply Forall_forall. intros r Hr.
  unfold selects. rewrite !Forall_cons, Forall_nil. simpl. split.
  - intros (_ & _ & _ & [Hnil|Hy'] & _).
    + rewrite Hnil in Hin. by apply elem_of_nil in Hin.
    + apply elem_of_unique, elem_of_dropna in Hy'. tauto.
  - intros Hna. repeat (split; [by left|]). split; [|done]. right.
    apply elem_of_unique, elem_of_dropna. split; [|done].
    apply list_elem_of_fmap. eauto.
Qed.

(** ** Q2 and Q3 *)

Section TopCounts.
Variable argsort : list Z → list nat.
Hypothesis argsort_ok : argsort_spec argsort.

End TopCounts.



(** ** Sums per group: Q5, Q6 and Q10 *)

Lemma series_sum_number_at k (grp : list (gmap string cell)) :
  Forall (λ c, isna c || is_num c = true) (at_label k <$> grp) →
  series_sum (at_label k <$> grp) = Ok (Zsum (number_at k <$> grp)).
Proof.
  unfold series_sum. intros H.
  assert (∃ l, numbers (at_label k <$> grp) = Ok l
               ∧ Zsum l = Zsum (number_at k <$> grp)) as (l & -> & <-); [|done].
  induction grp as [|r grp IH]; [by exists []|].
  rewrite fmap_cons in H. apply Forall_cons in H as [Hr H].
  destruct (IH H) as (l & IH1 & IH2).
  rewrite !fmap_cons. cbn [numbers]. unfold number_at at 1.
  destruct (at_label k r) eqn:E; try done.
  - exists l. split; [done|]. cbn [Zsum foldr]. fold (Zsum (number_at k <$> grp)).
    lia.
  - exists (n :: l). rewrite IH1. split; [done|]. cbn [Zsum foldr].
    fold (Zsum (number_at k <$> grp)). fold (Zsum l). lia.
Qed.





Lemma at_label_sums_row_key view by_ vals c :
  by_ ∉ vals → at_label by_ (sums_row view by_ vals [c]) = c.
Proof.
  unfold sums_row, key_row. simpl.
  assert (at_label by_ (<[by_ := c]> (∅ : gmap string cell)) = c) as H0
    by apply at_label_insert_eq.
  revert H0. generalize (<[by_ := c]> (∅ : gmap string cell)).
  induction vals as [|v vals IH] using rev_ind; intros acc H0 Hby; [done|].
  rewrite foldl_app. cbn [foldl]. rewrite at_label_insert_ne by set_solver.
  apply IH; [done|set_solver].
Qed.

Lemma Zsum_app l1 l2 : Zsum (l1 ++ l2) = (Zsum l1 + Zsum l2)%Z.
Proof. induction l1 as [|x l1 IH]; cbn; [done|]. fold (Zsum (l1 ++ l2)). fold (Zsum l1). lia. Qed.


(** The groups partition the rows whose key is among them. *)
Lemma Zsum_groups {A K} `{EqDecision K} (f : A → K) (w : A → Z) (ks : list K)
    (rs : list A) :
  NoDup ks →
  Zsum ((λ g, Zsum (w <$> filter (λ r, f r = g) rs)) <$> ks)
  = Zsum (w <$> filter (λ r, f r ∈ ks) rs).
Proof.
  induction 1 as [|g ks Hg Hnd IH].
  - cbn. rewrite filter_none; [done|]. apply Forall_true. intros r.
    apply not_elem_of_nil.
  - rewrite fmap_cons. cbn [Zsum foldr].
    fold (Zsum ((λ g, Zsum (w <$> filter (λ r, f r = g) rs)) <$> ks)).
    rewrite IH. clear IH. induction rs as [|r rs IHrs]; [done|].
    rewrite !filter_cons.
    destruct (decide (f r = g)) as [Heq|Hne].
    + rewrite decide_False by (rewrite Heq; done).
      rewrite decide_True by (rewrite Heq; left).
      rewrite !fmap_cons. cbn [Zsum foldr].
      fold (Zsum (w <$> filter (λ r, f r = g) rs)).
      fold (Zsum (w <$> filter (λ r, f r ∈ ks) rs)).
      fold (Zsum (w <$> filter (λ r, f r ∈ g :: ks) rs)).
      rewrite <- IHrs. lia.
    + destruct (decide (f r ∈ ks)) as [Hin|Hnin].
      * rewrite decide_True by (by right).
        rewrite !fmap_cons. cbn [Zsum foldr].
        fold (Zsum (w <$> filter (λ r, f r = g) rs)).
        fold (Zsum (w <$> filter (λ r, f r ∈ ks) rs)).
        fold (Zsum (w <$> filter (λ r, f r ∈ g :: ks) rs)).
        rewrite <- IHrs. lia.
      * rewrite decide_False by (rewrite elem_of_cons; tauto). exact IHrs.
Qed.

Section GroupSums.
Variable argsort : list Z → list nat.
Hypothesis argsort_ok : argsort_spec argsort.


End GroupSums.





(** ** The KPIs over a filtered view *)




Lemma total_fatalities_number_at view :
  "Fatalities" ∈ columns view → numeric view "Fatalities" →
  total_fatalities view = Ok (Zsum (number_at "Fatalities" <$> rows view)).
Proof.
  intros Hc Hn. unfold total_fatalities, getitem.
  rewrite (proj2 (has_column_true _ _) Hc). cbn [mbind result_bind].
  apply series_sum_number_at. by apply numeric_getitem.
Qed.




(** ** Q1 counts every record *)

Lemma load_data_categorical_present parse_datetime csv df k :
  well_formed csv → k ∈ categorical → k ∈ columns csv →
  load_data parse_datetime csv = Ok df →
  Forall (λ r, at_label k r ≠ NaN) (rows df).
Proof.
  intros Hwf Hk Hc Hload.
  assert (k ∉ derived_labels) as Hnd.
  { unfold categorical, derived_labels in *. set_solver. }
  apply Forall_forall. intros r' [i Hi]%list_elem_of_lookup.
  destruct (rows csv !! i) as [r|] eqn:Hr.
  - destruct (load_data_lookup _ _ _ _ _ Hload Hr) as (r2 & Hr2 & Hk2).
    simplify_eq. unfold at_label. rewrite (Hk2 k Hnd).
    unfold well_formed in Hwf. rewrite Forall_lookup in Hwf.
    specialize (Hwf i r Hr). rewrite Forall_forall in Hwf.
    destruct (Hwf k Hc) as [c Hcell].
    rewrite (fillna_row_categorical _ _ _ c) by done. simpl. by destruct c.
  - apply lookup_ge_None in Hr. apply lookup_lt_Some in Hi.
    apply load_data_length in Hload. lia.
Qed.

Lemma Zsum_ones {A} (l : list A) : Zsum ((λ _, 1%Z) <$> l) = Z.of_nat (length l).
Proof.
  induction l as [|x l IH]; [done|]. rewrite fmap_cons. cbn [Zsum foldr length].
  fold (Zsum ((λ _, 1%Z) <$> l)). lia.
Qed.

(** X14.  Q1 before its cut to ten: the table has one row per pair of
    country and aircraft, and since load_data leaves no country and no
    aircraft missing, every record of the view is counted in one of them:
    the counts add up to Total Crashes. *)
Theorem q1_counts_every_record parse_datetime csv df selection view :
  well_formed csv →
  "Country/Region" ∈ columns csv → "Aircraft" ∈ columns csv →
  load_data parse_datetime csv = Ok df →
  filtered_df df selection = Ok view →
  ∃ q, q1 view = Ok q
       ∧ Zsum (number_at "Crashes" <$> rows q) = Z.of_nat (total_crashes view).
Proof.
  intros Hwf Hc Ha Hload Hview.
  destruct (filtered_df_sublist _ _ _ Hview) as [Hcols Hsub].
  assert (∀ k, k ∈ q1_by → k ∈ columns view) as Hin.
  { intros k Hk. rewrite Hcols.
    assert (has_column df k = has_column csv k) as Hsame.
    { unfold load_data in Hload. inv_bind Hload.
      rewrite (convert_date_has _ _ _ _ Hload),
        (add_fatalities_has _ _ _ E0), (fatality_columns_has _ _ _ E);
        try done; intros ->; unfold q1_by in Hk; set_solver. }
    apply has_column_true. rewrite Hsame. apply has_column_true.
    unfold q1_by in Hk. set_solver. }
  unfold q1, groupby_size. fold q1_by.
  rewrite check_columns_Ok by (apply Forall_forall; exact Hin).
  cbn [mbind result_bind]. eexists. split; [reflexivity|]. simpl.
  rewrite <- list_fmap_compose.
  rewrite (list_fmap_ext _ (λ g, Zsum ((λ _, 1%Z)
             <$> filter (λ r, key_of q1_by r = g) (rows view)))).
  2:{ intros i g _. simpl. unfold number_at. rewrite at_label_insert_eq.
      by rewrite Zsum_ones. }
  rewrite (Zsum_groups (key_of q1_by) (λ _, 1%Z)) by apply NoDup_group_keys.
  rewrite Zsum_ones. unfold total_crashes, len. do 2 f_equal.
  apply filter_all. apply Forall_forall. intros r Hr.
  apply elem_of_group_keys. split; [|eauto].
  assert (r ∈ rows df) as Hrdf by (eapply elem_of_sublist; [exact Hr|done]).
  pose proof (load_data_categorical_present parse_datetime csv df
                "Country/Region" Hwf ltac:(by_compute) Hc Hload) as H1.
  pose proof (load_data_categorical_present parse_datetime csv df
                "Aircraft" Hwf ltac:(by_compute) Ha Hload) as H2.
  rewrite Forall_forall in H1, H2. specialize (H1 r Hrdf). specialize (H2 r Hrdf).
  unfold key_of, has_na, q1_by. simpl.
  destruct (at_label "Country/Region" r), (at_label "Aircraft" r); done.
Qed.

(** ** A view without records *)

Lemma take_at_nil {A} (indexer : list nat) : take_at (@nil A) indexer = [].
Proof. induction indexer as [|i l IH]; [done|]. exact IH. Qed.

Section EmptyView.
Variable argsort : list Z → list nat.
Variable cols : list string.

Lemma getitem_no_rows k :
k ∈ cols → getitem {| columns := cols; rows := [] |} k = Ok [].
Proof.
intros Hk. unfold getitem.
by rewrite (proj2 (has_column_true {| columns := cols; rows := [] |} k) Hk).
Qed.

Lemma sort_values_no_rows cs k ascending :
k ∈ cs →
sort_values argsort {| columns := cs; rows := [] |} k ascending
= Ok {| columns := cs; rows := [] |}.
Proof.
intros Hk. unfold sort_values, getitem.
rewrite (proj2 (has_column_true {| columns := cs; rows := [] |} k) Hk). cbn [mbind result_bind fmap list_fmap rows].
unfold nargsort. cbn [forallb]. cbn [mbind result_bind columns rows].
by rewrite take_at_nil.
Qed.

Lemma value_counts_no_rows k :
k ∈ cols →
value_counts argsort {| columns := cols; rows := [] |} k
= Ok {| columns := [k; "count"]; rows := [] |}.
Proof.
intros Hk. unfold value_counts. rewrite getitem_no_rows by done.
cbn [mbind result_bind]. apply sort_values_no_rows. set_solver.
Qed.

Lemma groupby_sum_no_rows by_ vals :
by_ ∈ cols → Forall (λ v, v ∈ cols) vals →
groupby_sum {| columns := cols; rows := [] |} by_ vals
= Ok {| columns := by_ :: vals; rows := [] |}.
Proof.
intros Hby Hvals. unfold groupby_sum.
rewrite check_columns_Ok by (by apply Forall_cons). reflexivity.
Qed.
End EmptyView.

(** X15.  When no record passes the filters (or the dataset has none) the
    script raises nothing: it shows zero crashes, fatalities and people
    aboard, an average that is not a number, a share of zero, and every
    table without rows. *)
Theorem no_record_selected argsort multiselect df options view :
  filters df = Ok options →
  filtered_df df (selected_filters multiselect options) = Ok view →
  rows view = [] →
  "Location" ∈ columns df → "Aboard" ∈ columns df → "Fatalities" ∈ columns df →
  numeric df "Fatalities" →
  ∃ d, dashboard argsort multiselect df = Ok d
       ∧ out_total_crashes d = 0
       ∧ out_total_fatalities d = 0%Z
       ∧ out_q9 d = 0%Z
       ∧ out_avg_fatalities d = FNaN
       ∧ match out_percent_fatalities d with
         | ZeroPercent => True
         | Percent q => (q == 0)%Q
         end
       ∧ Forall (λ q, rows q = [])
           [out_q1 d; out_q2 d; out_q3 d; out_q5 d; out_q6 d]
       ∧ match out_q4 d with
         | Some (table, chart) => rows table = [] ∧ rows chart = []
         | None => "Year" ∉ columns df
         end
       ∧ match out_q10 d with
         | Some q => rows q = []
         | None => "Month" ∉ columns df
         end.
Proof.
  intros Hf Hview Hrows Hl Ha Hfat Hnum.
  destruct (filtered_df_sublist _ _ _ Hview) as [Hcols _].
  destruct view as [cols rs]. simpl in Hcols, Hrows. subst cols rs.
  destruct (filters_inv _ _ Hf) as (Hc & Hair & Hop & _).
  destruct (series_sum_Ok (at_label "Fatalities" <$> rows df)) as [all Hall];
    [by apply numeric_getitem|].
  unfold dashboard. rewrite Hf. cbn [mbind result_bind]. rewrite Hview.
  cbn [mbind result_bind].
  unfold total_fatalities, total_aboard, avg_fatalities, percent_fatalities.
  rewrite !getitem_no_rows by done. cbn [mbind result_bind].
  change (series_sum []) with (Ok 0%Z). change (series_mean []) with (Ok FNaN).
  cbn [mbind result_bind].
  unfold getitem at 1 2. rewrite (proj2 (has_column_true _ _) Hfat).
  cbn [mbind result_bind]. rewrite Hall. cbn [mbind result_bind].
  assert (∀ x : Q, (inject_Z 0 / x * inject_Z 100 == 0)%Q) as Hzero.
  { intros x. unfold Qdiv. rewrite !Qmult_0_l. reflexivity. }
  destruct (0 <? all)%Z.
  all: unfold has_column at 1 2; cbn [columns].
  all: destruct (decide ("Year" ∈ columns df)) as [Hy|Hy];
    [rewrite (bool_decide_eq_true_2 _ Hy)|rewrite (bool_decide_eq_false_2 _ Hy)].
  all: destruct (decide ("Month" ∈ columns df)) as [Hm|Hm];
    [rewrite (bool_decide_eq_true_2 _ Hm)|rewrite (bool_decide_eq_false_2 _ Hm)].
  all: cbn [mbind result_bind].
  all: unfold q1_top, q1, groupby_size.
  all: rewrite check_columns_Ok by (repeat constructor; assumption).
  all: cbn [mbind result_bind]; change (group_keys _ []) with (@nil (list cell)).
  all: cbn [fmap list_fmap]; rewrite sort_values_no_rows by set_solver.
  all: cbn [mbind result_bind].
  all: unfold q2, q3, q4; rewrite !value_counts_no_rows by done.
  all: cbn [mbind result_bind head rows columns take]; unfold set_columns.
  all: cbn [columns rows length fmap list_fmap].
  all: rewrite !bool_decide_eq_true_2 by done; cbn [mbind result_bind].
  all: unfold q5, q6, q10.
  all: rewrite !groupby_sum_no_rows
         by first [assumption | repeat constructor; assumption].
  all: cbn [mbind result_bind]; rewrite !sort_values_no_rows by set_solver.
  all: cbn [mbind result_bind head rows columns take].
  all: eexists; (split; [reflexivity|]); simpl.
  all: repeat split; try done; try apply Hzero; by repeat constructor.
Qed.

(** ** Where the air and ground fatalities come from *)

(** X16.  Record by record, the column Air of the loaded dataset holds what
    the source has under Fatalities (air), and 0 when the source has no
    such column, even when it has a column Air of its own; the column
    Ground holds what the source has under Ground, and 0 when it has no
    such column. *)
Theorem air_and_ground_columns parse_datetime csv df i r :
  well_formed csv →
  load_data parse_datetime csv = Ok df → rows csv !! i = Some r →
  ∃ r', rows df !! i = Some r'
        ∧ at_label "Air" r'
          = (if decide ("Fatalities (air)" ∈ columns csv)
             then at_label "Fatalities (air)" r else Num 0)
        ∧ at_label "Ground" r'
          = (if decide ("Ground" ∈ columns csv)
             then at_label "Ground" r else Num 0).
Proof.
  intros Hwf Hload Hr. unfold load_data in Hload.
  apply bind_Ok in Hload as (df1 & Hfc & Hload).
  apply bind_Ok in Hload as (df2 & Haf & Hload).
  set (r0 := fillna_row csv categorical_defaults r).
  assert (rows (fillna csv categorical_defaults) !! i = Some r0) as Hr0.
  { unfold fillna. simpl. by rewrite list_lookup_fmap, Hr. }
  assert (∀ k, k ∉ categorical → r0 !! k = r !! k) as Hsame.
  { intros k Hk. by apply fillna_row_other. }
  assert (∃ r1, rows df1 !! i = Some r1
                ∧ at_label "Air" r1
                  = (if decide ("Fatalities (air)" ∈ columns csv)
                     then at_label "Fatalities (air)" r else Num 0)
                ∧ at_label "Ground" r1
                  = (if decide ("Ground" ∈ columns csv)
                     then at_label "Ground" r else Num 0)) as (r1 & Hr1 & Ha & Hg).
  { unfold fatality_columns in Hfc.
    apply bind_Ok in Hfc as (dfa & Hair & Hfc).
    assert (∃ ra, rows dfa !! i = Some ra
                  ∧ at_label "Air" ra
                    = (if decide ("Fatalities (air)" ∈ columns csv)
                       then at_label "Fatalities (air)" r else Num 0)
                  ∧ ra !! "Ground" = r !! "Ground"
                  ∧ has_column dfa "Ground" = has_column csv "Ground")
      as (ra & Hra & Haa & Hga & Hcg).
    { destruct (has_column (fillna csv categorical_defaults) "Fatalities (air)")
        eqn:Ec.
      - apply has_column_true in Ec. simpl in Ec.
        rewrite decide_True by done.
        pose proof (rename_lookup_exact _ _ _ _ _ _ Hair Hr0) as Hra.
        unfold well_formed in Hwf. rewrite Forall_lookup in Hwf.
        specialize (Hwf i r Hr). rewrite Forall_forall in Hwf.
        destruct (Hwf _ Ec) as [c Hc].
        rewrite (Hsame "Fatalities (air)"), Hc in Hra by by_compute.
        eexists. split; [exact Hra|]. split; [|split].
        + rewrite at_label_insert_eq. unfold at_label. by rewrite Hc.
        + rewrite lookup_insert_ne, lookup_delete_ne by done.
          apply Hsame. by_compute.
        + unfold rename in Hair.
          destruct (has_column (fillna csv categorical_defaults) "Air"
                    && bool_decide ("Fatalities (air)" ≠ "Air")); [done|].
          injection Hair as <-. unfold has_column. simpl.
          apply bool_decide_ext. rewrite list_elem_of_fmap. split.
          * intros (c' & Hc' & Hin). destruct (decide (c' = "Fatalities (air)"));
              [done|by subst].
          * intros Hin. exists "Ground". rewrite decide_False by done.
            split; [done|exact Hin].
      - apply has_column_false in Ec. simpl in Ec.
        rewrite decide_False by done. injection Hair as <-.
        eexists. split; [by apply setitem_scalar_lookup|]. split; [|split].
        + by rewrite at_label_insert_eq.
        + rewrite lookup_insert_ne by done. apply Hsame. by_compute.
        + rewrite has_column_setitem_scalar.
          rewrite (bool_decide_eq_false_2 ("Air" = "Ground")) by done.
          by rewrite orb_false_r. }
    rewrite Hcg in Hfc.
    destruct (has_column csv "Ground") eqn:Eg; simpl in Hfc; injection Hfc as <-.
    - apply has_column_true in Eg. rewrite (decide_True (P := "Ground" ∈ _)) by done.
      exists ra. split; [done|]. split; [done|]. unfold at_label. by rewrite Hga.
    - apply has_column_false in Eg.
      rewrite (decide_False (P := "Ground" ∈ _)) by done.
      eexists. split; [by apply setitem_scalar_lookup|]. split.
      + by rewrite at_label_insert_ne.
      + by rewrite at_label_insert_eq. }
  destruct (add_fatalities_lookup _ _ _ _ Haf Hr1) as (c & Hr2 & _).
  destruct (convert_date_lookup _ _ _ _ _ Hload Hr2) as (r' & Hr' & Hk).
  exists r'. split; [done|]. unfold at_label in *.
  rewrite !Hk by done. rewrite !lookup_insert_ne by done. done.
Qed.

(** ** A source without the column Aboard *)

Lemma selected_filters_selectable multiselect df options :
  picks_options multiselect → filters df = Ok options →
  selectable df (selected_filters multiselect options).
Proof.
  intros Hpick (H1 & H2 & H3 & ->)%filters_inv.
  unfold selectable, selected_filters. simpl.
  repeat (apply Forall_cons; split; [by right|]).
  apply Forall_cons. split; [|constructor]. simpl.
  destruct (has_column df "Year") eqn:E.
  - right. by apply has_column_true.
  - left. pose proof (Hpick "Year" []) as Hsub.
    destruct (multiselect "Year" []) as [|x l]; [done|]. set_solver.
Qed.

Lemma load_data_has_other parse_datetime csv df k :
  load_data parse_datetime csv = Ok df → k ∉ derived_labels →
  has_column df k = has_column csv k.
Proof.
  intros Hload Hk. unfold load_data in Hload.
  apply bind_Ok in Hload as (df1 & Hfc & Hload).
  apply bind_Ok in Hload as (df2 & Haf & Hload).
  rewrite (convert_date_has _ _ _ _ Hload), (add_fatalities_has _ _ _ Haf),
    (fatality_columns_has _ _ _ Hfc);
    try done; intros ->; apply Hk; unfold derived_labels; set_solver.
Qed.

(** X17.  A source that has the three dimension columns but no column
    Aboard gets through the filters and the total of fatalities, and then
    the script raises KeyError for Aboard at line 66: no KPI and no view
    is shown. *)
Theorem missing_aboard_raises parse_datetime argsort multiselect csv df
    (h : store) :
  load_data parse_datetime csv = Ok df →
  picks_options multiselect →
  Forall (λ k, k ∈ columns csv) ["Country/Region"; "Aircraft"; "Operator"] →
  numeric df "Fatalities" →
  "Aboard" ∉ columns csv →
  main parse_datetime argsort multiselect (Ok csv) h = Raise (KeyError "Aboard").
Proof.
  intros Hload Hpick Hdims Hnum Hab.
  assert (∀ k, k ∉ derived_labels → k ∈ columns df ↔ k ∈ columns csv) as Hsame.
  { intros k Hk. rewrite <- !has_column_true.
    by rewrite (load_data_has_other _ _ _ _ Hload Hk). }
  rewrite !Forall_cons in Hdims. destruct Hdims as (Hc & Ha & Ho & _).
  destruct (filters_Ok df) as (c & a & o & y & Hf & _);
    [by apply Hsame; [by_compute|]..|].
  pose proof (selected_filters_selectable _ _ _ Hpick Hf) as Hsel.
  pose proof (filtered_df_spec _ _ Hsel) as Hview.
  set (view := {| columns := columns df;
                  rows := filter (selects (selected_filters multiselect
                            [("Country/Region", c); ("Aircraft", a);
                             ("Operator", o); ("Year", y)])) (rows df) |}) in *.
  assert (total_fatalities view
          = Ok (Zsum (number_at "Fatalities" <$> rows view))) as Htotal.
  { apply total_fatalities_number_at.
    - simpl. by eapply load_data_has_Fatalities.
    - eapply numeric_sublist; [|exact Hnum]. simpl. apply sublist_filter. }
  assert (total_aboard view = Raise (KeyError "Aboard")) as Haboard.
  { unfold total_aboard, getitem.
    rewrite (proj2 (has_column_false view "Aboard")); [done|].
    simpl. rewrite Hsame; [done|by_compute]. }
  unfold main. rewrite run_lift_bind, run_lift_bind, Hload, run_alloc_bind.
  pose proof (script_spec argsort multiselect (h ++ [df]) (length h) df
                (lookup_snoc_eq _ _)) as Hs.
  unfold dashboard in Hs. rewrite Hf in Hs. cbn [mbind result_bind] in Hs.
  rewrite Hview in Hs. cbn [mbind result_bind] in Hs.
  rewrite Htotal in Hs. cbn [mbind result_bind] in Hs.
  rewrite Haboard in Hs. exact Hs.
Qed.

(** ** The properties above on the samples *)

Lemma missing_dimension_column_raises_witness :
  main no_dates argsort_later_first select_nothing (Ok no_aircraft_csv) []
  = Raise (KeyError "Aircraft").
Proof.
  apply (missing_dimension_column_raises no_dates argsort_later_first
           select_nothing no_aircraft_csv
           (frame_of (load_data no_dates no_aircraft_csv)) [] "Aircraft").
  - vm_compute. reflexivity.
  - vm_compute. reflexivity.
Defined.

Lemma offered_selection_never_raises_witness :
  selectable dated_df (selected_filters select_first_country (offered dated_df))
  ∧ filtered_df dated_df (selected_filters select_first_country (offered dated_df))
    = Ok {| columns := columns dated_df;
            rows := filter (selects (selected_filters select_first_country
                                       (offered dated_df)))
                           (rows dated_df) |}.
Proof.
  apply (offered_selection_never_raises select_first_country dated_df
           (offered dated_df)).
  - exact select_first_country_picks.
  - vm_compute. reflexivity.
Defined.

Lemma filters_compose_witness :
  (∃ view, filtered_df sample_df [("Country/Region", [Str "US"])] = Ok view
           ∧ filtered_df view [("Operator", [Str "Delta"])]
             = filtered_df sample_df ([("Country/Region", [Str "US"])]
                                      ++ [("Operator", [Str "Delta"])]))
  ∧ filtered_df sample_df ([("Operator", [Str "Delta"])]
                           ++ [("Country/Region", [Str "US"])])
    = filtered_df sample_df ([("Country/Region", [Str "US"])]
                             ++ [("Operator", [Str "Delta"])]).
Proof.
  apply (filters_compose sample_df [("Country/Region", [Str "US"])]
           [("Operator", [Str "Delta"])]).
  by_compute.
Defined.

Lemma picking_every_year_drops_undated_witness :
  filtered_df dated_df [("Country/Region", []); ("Aircraft", []); ("Operator", []);
                        ("Year", options_of "Year" (offered dated_df))]
  = Ok {| columns := columns dated_df;
          rows := filter (λ r, at_label "Year" r ≠ NaN) (rows dated_df) |}.
Proof.
  apply (picking_every_year_drops_undated dated_df (offered dated_df)).
  - vm_compute. reflexivity.
  - by_compute.
  - exists (first_row dated_df). split; by_compute.
Defined.








Lemma q1_counts_every_record_witness :
  ∃ q, q1 us_view = Ok q
       ∧ Zsum (number_at "Crashes" <$> rows q) = Z.of_nat (total_crashes us_view).
Proof.
  apply (q1_counts_every_record no_dates sample_csv sample_df sample_selection
           us_view).
  - by_compute.
  - by_compute.
  - by_compute.
  - vm_compute. reflexivity.
  - vm_compute. reflexivity.
Defined.

Lemma no_record_selected_witness :
  ∃ d, dashboard argsort_later_first select_us_a320 sample_df = Ok d
       ∧ out_total_crashes d = 0
       ∧ out_total_fatalities d = 0%Z
       ∧ out_q9 d = 0%Z
       ∧ out_avg_fatalities d = FNaN
       ∧ match out_percent_fatalities d with
         | ZeroPercent => True
         | Percent q => (q == 0)%Q
         end
       ∧ Forall (λ q, rows q = [])
           [out_q1 d; out_q2 d; out_q3 d; out_q5 d; out_q6 d]
       ∧ match out_q4 d with
         | Some (table, chart) => rows table = [] ∧ rows chart = []
         | None => "Year" ∉ columns sample_df
         end
       ∧ match out_q10 d with
         | Some q => rows q = []
         | None => "Month" ∉ columns sample_df
         end.
Proof.
  apply (no_record_selected argsort_later_first select_us_a320 sample_df
           (offered sample_df) empty_view).
  - vm_compute. reflexivity.
  - vm_compute. reflexivity.
  - vm_compute. reflexivity.
  - by_compute.
  - by_compute.
  - by_compute.
  - by_compute.
Defined.

Lemma air_and_ground_columns_witness :
  ∃ r', rows sample_df !! 0 = Some r'
        ∧ at_label "Air" r'
          = (if decide ("Fatalities (air)" ∈ columns sample_csv)
             then at_label "Fatalities (air)" (first_row sample_csv) else Num 0)
        ∧ at_label "Ground" r'
          = (if decide ("Ground" ∈ columns sample_csv)
             then at_label "Ground" (first_row sample_csv) else Num 0).
Proof.
  apply (air_and_ground_columns no_dates sample_csv sample_df 0 (first_row sample_csv)).
  - by_compute.
  - vm_compute. reflexivity.
  - reflexivity.
Defined.

Lemma missing_aboard_raises_witness :
  main no_dates argsort_later_first select_first_country (Ok no_aboard_csv) []
  = Raise (KeyError "Aboard").
Proof.
  apply (missing_aboard_raises no_dates argsort_later_first select_first_country
           no_aboard_csv no_aboard_df []).
  - vm_compute. reflexivity.
  - exact select_first_country_picks.
  - by_compute.
  - by_compute.
  - by_compute.
Defined.
